(** * Swiss tournament manager: shell operations and update checker

    A shallow embedding of the Python sources

      - [core/updater.py]    ([Updater])
      - [gui/players_tab.py] ([PlayersTab])
      - [gui/mainwindow.py]  ([SwissTournamentApp])

    Python objects become records, [dict]s keyed by player id become
    [gmap]s, decoded JSON documents become values of [json], and a method
    that can raise becomes a computation in the state-and-exception monad
    [Py].  Widgets are not part of the state: what a method shows to the
    user (message boxes, signals, view refreshes) is appended to a trace
    of [ui_event]s. *)

From Stdlib Require Import ZArith Ascii String.
From stdpp Require Import gmap strings list fin_maps.

Open Scope string_scope.
Open Scope Z_scope.

Set Warnings "-register-all".

(** ** Python values and exceptions *)

(** The exceptions the modelled code can raise or name in an [except]
    clause.  [KeyboardInterrupt] stands for the [BaseException]s that are
    not [Exception]s; no modelled statement raises it. *)
Inductive exn : Type :=
| ConnectionError          (* requests: connection failure or timeout *)
| HTTPError                (* requests: raise_for_status *)
| RequestsJSONDecodeError  (* requests: Response.json on a non-JSON body *)
| JSONDecodeError          (* json.load on a malformed document *)
| InvalidVersion           (* packaging.version.parse *)
| DecodeError              (* Tournament.from_dict on a malformed record *)
| AttributeError
| TypeError
| KeyError
| IndexError
| ValueError
| OSError
| KeyboardInterrupt.

(** [isinstance(e, requests.RequestException)] *)
Definition is_RequestException (e : exn) : bool :=
  match e with
  | ConnectionError | HTTPError | RequestsJSONDecodeError => true
  | _ => false
  end.

(** [isinstance(e, json.JSONDecodeError)] *)
Definition is_JSONDecodeError (e : exn) : bool :=
  match e with
  | RequestsJSONDecodeError | JSONDecodeError => true
  | _ => false
  end.

(** [isinstance(e, Exception)] *)
Definition is_Exception (e : exn) : bool :=
  match e with
  | KeyboardInterrupt => false
  | _ => true
  end.

(** A decoded JSON document, as [json.load] and [Response.json] return
    it: [JNull] is Python's [None], an object is a [dict] (here an
    association list read by its first matching key), a number with a
    fraction or exponent is [JFloat m e] for [m * 10^e]. *)
Inductive json : Type :=
| JNull
| JBool (b : bool)
| JInt (z : Z)
| JFloat (m e : Z)
| JStr (s : string)
| JArr (items : list json)
| JObj (fields : list (string * json)).

Fixpoint dict_lookup (k : string) (fields : list (string * json)) : option json :=
  match fields with
  | [] => None
  | (k', v) :: rest => if String.eqb k k' then Some v else dict_lookup k rest
  end.

(** Python truthiness, [bool(v)]. *)
Definition truthy (v : json) : bool :=
  match v with
  | JNull => false
  | JBool b => b
  | JInt z => negb (z =? 0)
  | JFloat m _ => negb (m =? 0)
  | JStr s => negb (String.eqb s "")
  | JArr items => match items with [] => false | _ => true end
  | JObj fields => match fields with [] => false | _ => true end
  end.

(** [str.lstrip(chars)]: drop leading characters that occur in [chars]. *)
Fixpoint lstrip (chars : list ascii) (s : string) : string :=
  match s with
  | EmptyString => EmptyString
  | String a rest => if existsb (Ascii.eqb a) chars then lstrip chars rest else s
  end.

(** [needle in s] for two [str]s. *)
Definition is_substring (needle s : string) : bool :=
  match String.index 0 needle s with
  | Some _ => true
  | None => false
  end.

(** ** Computations that read and write an object and may raise *)

Definition Py (St A : Type) : Type := St -> (exn + A) * St.

Definition py_ret {St A} (a : A) : Py St A := fun st => (inr a, st).

Definition py_bind {St A B} (c : Py St A) (k : A -> Py St B) : Py St B :=
  fun st =>
    match c st with
    | (inl e, st') => (inl e, st')
    | (inr a, st') => k a st'
    end.

Definition raise {St A} (e : exn) : Py St A := fun st => (inl e, st).

Definition get_self {St} : Py St St := fun st => (inr st, st).

(** Lift a pure step that may raise. *)
Definition lift {St A} (r : exn + A) : Py St A := fun st => (r, st).

#[export] Instance py_mret {St} : MRet (Py St) := @py_ret St.
#[export] Instance py_mbind {St} : MBind (Py St) := fun A B k c => py_bind c k.

(** One [except C as e: ...] clause: the class test and the handler. *)
Definition except_clause (St A : Type) : Type := ((exn -> bool) * (exn -> Py St A))%type.

Fixpoint select_clause {St A} (e : exn) (clauses : list (except_clause St A))
  : option (exn -> Py St A) :=
  match clauses with
  | [] => None
  | (matches, handler) :: rest =>
      if matches e then Some handler else select_clause e rest
  end.

(** [try: body except ...]: the first clause whose class matches handles
    the exception, from the state at the point of the raise; an
    exception no clause matches propagates. *)
Definition try_except {St A} (body : Py St A) (clauses : list (except_clause St A))
  : Py St A :=
  fun st =>
    match body st with
    | (inr a, st') => (inr a, st')
    | (inl e, st') =>
        match select_clause e clauses with
        | Some handler => handler e st'
        | None => (inl e, st')
        end
    end.

(** ** Operations on JSON values, with the exception Python raises *)

(** [v.get(k, dflt)] *)
Definition py_get (v : json) (k : string) (dflt : json) : exn + json :=
  match v with
  | JObj fields => inr (default dflt (dict_lookup k fields))
  | _ => inl AttributeError
  end.

(** [v.lstrip(chars)] *)
Definition py_lstrip (v : json) (chars : list ascii) : exn + string :=
  match v with
  | JStr s => inr (lstrip chars s)
  | _ => inl AttributeError
  end.

(** [k in v] for a [str] key [k]. *)
Definition py_contains (k : string) (v : json) : exn + bool :=
  match v with
  | JObj fields => inr (bool_decide (is_Some (dict_lookup k fields)))
  | JArr items =>
      inr (existsb (fun x => match x with JStr s => String.eqb s k | _ => false end) items)
  | JStr s => inr (is_substring k s)
  | _ => inl TypeError
  end.

(** [v[k]] for a [str] key [k]. *)
Definition py_getitem_key (v : json) (k : string) : exn + json :=
  match v with
  | JObj fields =>
      match dict_lookup k fields with
      | Some x => inr x
      | None => inl KeyError
      end
  | _ => inl TypeError
  end.

(** [v[0]]: the first element of a list, the first character of a
    [str]; on a [dict], whose keys are all [str], a key error. *)
Definition py_getitem_0 (v : json) : exn + json :=
  match v with
  | JArr items =>
      match items with
      | x :: _ => inr x
      | [] => inl IndexError
      end
  | JStr s =>
      match s with
      | String a _ => inr (JStr (String a EmptyString))
      | EmptyString => inl IndexError
      end
  | JObj _ => inl KeyError
  | _ => inl TypeError
  end.

(** ** [core/updater.py] *)

(** [packaging.version]: [parse] (here [None] when it raises
    [InvalidVersion]) and the order on [Version] objects. *)
Class Packaging : Type := {
  Version : Type;
  parse_version : string -> option Version;
  version_gt : Version -> Version -> bool
}.

(** What [requests.get(UPDATE_URL, timeout=10)] meets: no response at all
    (connection error, timeout), or a response with its status code and
    its body as [Response.json] decodes it ([None]: not JSON). *)
Inductive feed : Type :=
| Unreachable
| Response (status_code : Z) (body : option json).

Record Updater : Type := mkUpdater {
  current_version : string;
  latest_version_info : json
}.

(** [Updater.__init__] *)
Definition Updater_init (current_version : string) : Updater :=
  mkUpdater current_version JNull.

Definition set_latest_version_info (v : json) : Py Updater unit :=
  fun self => (inr tt, mkUpdater (current_version self) v).

(** [requests.get]: the response (status code and body), or a raise. *)
Definition requests_get (fd : feed) : exn + (Z * option json) :=
  match fd with
  | Unreachable => inl ConnectionError
  | Response status_code body => inr (status_code, body)
  end.

(** [Response.raise_for_status]: raises for 4xx and 5xx only. *)
Definition raise_for_status (response : Z * option json) : exn + unit :=
  if (400 <=? fst response) && (fst response <? 600) then inl HTTPError else inr tt.

(** [Response.json] *)
Definition response_json (response : Z * option json) : exn + json :=
  match snd response with
  | Some v => inr v
  | None => inl RequestsJSONDecodeError
  end.

Section UpdaterMethods.
Context `{Packaging}.

Definition parse (s : string) : exn + Version :=
  match parse_version s with
  | Some v => inr v
  | None => inl InvalidVersion
  end.

(** The body of the [try] in [check_for_updates]. *)
Definition check_for_updates_try (fd : feed) : Py Updater bool :=
  response ← lift (requests_get fd);
  lift (raise_for_status response);;
  info ← lift (response_json response);
  set_latest_version_info info;;
  self ← get_self;
  tag_name ← lift (py_get (latest_version_info self) "tag_name" (JStr "0.0.0"));
  latest_version_str ← lift (py_lstrip tag_name ["v"%char]);
  latest ← lift (parse latest_version_str);
  current ← lift (parse (current_version self));
  mret (version_gt latest current).

(** The body shared by the three [except] clauses (the message each one
    prints is not modelled). *)
Definition update_check_failed (e : exn) : Py Updater bool :=
  set_latest_version_info JNull;;
  mret false.

Definition check_for_updates (fd : feed) : Py Updater bool :=
  try_except (check_for_updates_try fd)
    [ (is_RequestException, update_check_failed);
      (is_JSONDecodeError, update_check_failed);
      (is_Exception, update_check_failed) ].

End UpdaterMethods.

(** [Updater.get_latest_version] *)
Definition get_latest_version (self : Updater) : exn + json :=
  if truthy (latest_version_info self) then
    match py_get (latest_version_info self) "tag_name" (JStr "N/A") with
    | inl e => inl e
    | inr tag_name =>
        match py_lstrip tag_name ["v"%char] with
        | inl e => inl e
        | inr s => inr (JStr s)
        end
    end
  else inr JNull.

(** [Updater.get_release_notes] *)
Definition get_release_notes (self : Updater) : exn + json :=
  if truthy (latest_version_info self) then
    py_get (latest_version_info self) "body" (JStr "No description available.")
  else inr JNull.

(** [Updater.get_download_url]; [and] evaluates left to right and stops at
    the first falsy operand. *)
Definition get_download_url (self : Updater) : exn + json :=
  let info := latest_version_info self in
  if truthy info then
    match py_contains "assets" info with
    | inl e => inl e
    | inr false => inr JNull
    | inr true =>
        match py_getitem_key info "assets" with
        | inl e => inl e
        | inr assets =>
            if truthy assets then
              match py_getitem_0 assets with
              | inl e => inl e
              | inr asset => py_get asset "browser_download_url" JNull
              end
            else inr JNull
        end
    end
  else inr JNull.

(** A [Packaging] instance for running examples: plain release numbers
    [N(.N)*] only, compared component by component with missing
    components read as zero (so [1.2] equals [1.2.0]).  [packaging]
    itself accepts much more (pre-releases, epochs, local versions). *)
Definition digit_of (a : ascii) : option Z :=
  let n := Z.of_N (N_of_ascii a) in
  if (48 <=? n) && (n <=? 57) then Some (n - 48) else None.

Fixpoint decimal_from (acc : Z) (s : string) : option Z :=
  match s with
  | EmptyString => Some acc
  | String a rest =>
      match digit_of a with
      | Some d => decimal_from (acc * 10 + d) rest
      | None => None
      end
  end.

(** A non-empty run of ASCII digits. *)
Definition decimal (s : string) : option Z :=
  match s with
  | EmptyString => None
  | _ => decimal_from 0 s
  end.

Fixpoint split_on (sep : ascii) (current : string) (s : string) : list string :=
  match s with
  | EmptyString => [current]
  | String a rest =>
      if Ascii.eqb a sep then current :: split_on sep "" rest
      else split_on sep (current +:+ String a "") rest
  end.

Definition parse_release (s : string) : option (list Z) :=
  mapM decimal (split_on "."%char "" s).

Fixpoint release_gt (a b : list Z) : bool :=
  match a, b with
  | [], _ => false
  | x :: a', [] => (0 <? x) || ((x =? 0) && release_gt a' [])
  | x :: a', y :: b' => (y <? x) || ((x =? y) && release_gt a' b')
  end.

Definition release_numbers : Packaging :=
  {| Version := list Z; parse_version := parse_release; version_gt := release_gt |}.

(** ** Players and tournaments *)

Module Player.

(** Modelled from the spec: the class [Player] of [core/player.py],
    which is not among the sources, with the attributes the shell reads
    and writes. *)
Record t : Type := mk {
  id : string;
  name : string;
  rating : option Z;
  gender : option string;
  dob : option string;
  phone : option string;
  email : option string;
  club : option string;
  federation : option string;
  is_active : bool
}.

Definition set_is_active (b : bool) (p : t) : t :=
  mk (id p) (name p) (rating p) (gender p) (dob p) (phone p) (email p)
     (club p) (federation p) b.

End Player.

(** Modelled from the spec: the constructor of [core/player.py], which is
    not among the sources.  A player gets its id at creation (the id the
    constructor picks is an input here) and starts active. *)
Definition Player_new (new_id name : string) (rating : option Z)
    (gender dob phone email club federation : option string) : Player.t :=
  Player.mk new_id name rating gender dob phone email club federation true.

(** Modelled from the spec: the outcome recorded for one pairing. *)
Inductive outcome : Type := WhiteWins | Draw | BlackWins | ByePoint.

Module Tournament.

(** Modelled from the spec: the class [Tournament] of
    [core/tournament.py], which is not among the sources.  The shell reads
    and writes [name], [players] (the [dict] from player id to player),
    [num_rounds], [tiebreak_order] and [rounds_pairings_ids] (one entry
    per paired round, the pairs in board order, the second id absent for
    a bye); [rounds_results] stands for the outcomes of the recorded
    rounds. *)
Record t : Type := mk {
  name : string;
  players : gmap string Player.t;
  num_rounds : Z;
  tiebreak_order : list string;
  rounds_pairings_ids : list (list (string * option string));
  rounds_results : list (list outcome)
}.

Definition set_players (ps : gmap string Player.t) (T : t) : t :=
  mk (name T) ps (num_rounds T) (tiebreak_order T) (rounds_pairings_ids T)
     (rounds_results T).

Definition set_num_rounds (n : Z) (T : t) : t :=
  mk (name T) (players T) n (tiebreak_order T) (rounds_pairings_ids T)
     (rounds_results T).

Definition set_tiebreak_order (order : list string) (T : t) : t :=
  mk (name T) (players T) (num_rounds T) order (rounds_pairings_ids T)
     (rounds_results T).

(** [len(tournament.rounds_pairings_ids) > 0] *)
Definition started (T : t) : bool :=
  (0 <? Z.of_nat (length (rounds_pairings_ids T))).

End Tournament.

(** [any(p.name == name for p in players.values())] *)
Definition name_taken (name : string) (players : gmap string Player.t) : bool :=
  existsb (fun p => String.eqb (Player.name p) name) (snd <$> map_to_list players).

(** ** The shell state *)

Inductive box : Type := Warning | Information | Critical | Question.

(** What the user is shown.  Texts are left out except the title of a
    message box, which identifies the report. *)
Inductive ui_event : Type :=
| MessageBox (kind : box) (title : string)
| StatusMessage               (* statusBar().showMessage(...) *)
| HistoryMessage              (* a line added to the history log *)
| PlayerListItemAdded (player_id : string)
| PlayerListItemUpdated (player_id : string)
| PlayerListItemRemoved (player_id : string)
| PlayerListRefreshed
| ViewsCleared
| ViewsRefreshed
| StandingsHeadersUpdated (order : list string)
| StandingsTableUpdated (order : list string)
| SignalEmitted (signal : string).

(** The attributes of [SwissTournamentApp], and the trace of what was
    shown.  The tabs hold a reference to the same tournament object, so
    their methods act on this state too.  [current_round_index] and
    [last_recorded_results_data] hold whatever [load_tournament] read
    from the file. *)
Record App : Type := mkApp {
  tournament : option Tournament.t;
  current_round_index : json;
  last_recorded_results_data : json;
  _current_filepath : option string;
  _dirty : bool;
  ui : list ui_event
}.

Definition set_tournament (T : option Tournament.t) (self : App) : App :=
  mkApp T (current_round_index self) (last_recorded_results_data self)
        (_current_filepath self) (_dirty self) (ui self).

Definition set_current_round_index (v : json) (self : App) : App :=
  mkApp (tournament self) v (last_recorded_results_data self)
        (_current_filepath self) (_dirty self) (ui self).

Definition set_last_recorded_results_data (v : json) (self : App) : App :=
  mkApp (tournament self) (current_round_index self) v
        (_current_filepath self) (_dirty self) (ui self).

Definition set_current_filepath (path : option string) (self : App) : App :=
  mkApp (tournament self) (current_round_index self)
        (last_recorded_results_data self) path (_dirty self) (ui self).

Definition set_dirty (b : bool) (self : App) : App :=
  mkApp (tournament self) (current_round_index self)
        (last_recorded_results_data self) (_current_filepath self) b (ui self).

(** Append to the trace. *)
Definition show (ev : ui_event) (self : App) : App :=
  mkApp (tournament self) (current_round_index self)
        (last_recorded_results_data self) (_current_filepath self)
        (_dirty self) (ui self ++ [ev]).

(** [self.tournament.players = ...] on the shared tournament object. *)
Definition set_registry (ps : gmap string Player.t) (self : App) : App :=
  set_tournament (Tournament.set_players ps <$> tournament self) self.

(** [SwissTournamentApp.__init__], before a tournament is created. *)
Definition App_init : App := mkApp None (JInt 0) (JArr []) None false [].

(** [mark_dirty]; the [_update_ui_state] it triggers only enables and
    disables widgets, which are not part of the state. *)
Definition mark_dirty (dirty : bool) (self : App) : App :=
  if bool_decide (_dirty self ≠ dirty) then set_dirty dirty self else self.

Definition mark_clean (self : App) : App := mark_dirty false self.

(** [reset_tournament_state] *)
Definition reset_tournament_state (self : App) : App :=
  show ViewsCleared
    (mark_clean
      (set_current_filepath None
        (set_last_recorded_results_data (JArr [])
          (set_current_round_index (JInt 0)
            (set_tournament None self))))).

(** ** [gui/mainwindow.py] *)

(** [Tournament.from_dict] of [core/tournament.py], which is not among
    the sources: [None] when it raises on a malformed record. *)
Class TournamentCodec : Type := {
  from_dict : json -> option Tournament.t
}.

(** A path attribute is set when it is neither [None] nor empty. *)
Definition path_set (path : option string) : bool :=
  match path with
  | Some s => negb (String.eqb s "")
  | None => false
  end.

(** What [save_tournament] meets: the name picked in the save dialog
    (empty when cancelled) and whether serialising or writing raises. *)
Record save_env : Type := mkSaveEnv {
  save_name : string;
  write_fails : bool
}.

(** [save_tournament]; the bytes written are not part of the state. *)
Definition save_tournament (save_as : bool) (env : save_env) (self : App) : bool * App :=
  match tournament self with
  | None => (false, self)
  | Some _ =>
      let ask := negb (path_set (_current_filepath self)) || save_as in
      if ask && String.eqb (save_name env) "" then (false, self)
      else
        let self := if ask then set_current_filepath (Some (save_name env)) self else self in
        if write_fails env then (false, show (MessageBox Critical "Save Error") self)
        else (true, show HistoryMessage (show StatusMessage (mark_clean self)))
  end.

Inductive save_reply : Type := Save | Discard | Cancel.

(** [check_save_before_proceeding] *)
Definition check_save_before_proceeding (reply : save_reply) (env : save_env)
    (self : App) : bool * App :=
  if negb (_dirty self) then (true, self)
  else
    let self := show (MessageBox Question "Unsaved Changes") self in
    match reply with
    | Save => save_tournament false env self
    | Discard => (true, self)
    | Cancel => (false, self)
    end.

(** [show_settings_dialog]; [dialog] is [None] when the dialog is
    rejected, else the pair [get_settings()] returns. *)
Definition show_settings_dialog (dialog : option (Z * list string)) (self : App)
  : bool * App :=
  match tournament self with
  | None => (false, self)
  | Some T =>
      let tournament_started := Tournament.started T in
      match dialog with
      | Some (new_rounds, new_tiebreaks) =>
          let '(T, self) :=
            if bool_decide (Tournament.num_rounds T ≠ new_rounds) && negb tournament_started
            then
              let T := Tournament.set_num_rounds new_rounds T in
              (T, mark_dirty true (show HistoryMessage (set_tournament (Some T) self)))
            else (T, self) in
          let self :=
            if bool_decide (Tournament.tiebreak_order T ≠ new_tiebreaks)
            then
              let T := Tournament.set_tiebreak_order new_tiebreaks T in
              show (StandingsTableUpdated (Tournament.tiebreak_order T))
                (show (StandingsHeadersUpdated (Tournament.tiebreak_order T))
                  (mark_dirty true (show HistoryMessage (set_tournament (Some T) self))))
            else self in
          (true, self)
      | None => (false, self)
      end
  end.

(** What opening and decoding the chosen file gives. *)
Inductive file_content : Type :=
| Unreadable                (* [open] raises *)
| Malformed                 (* [json.load] raises *)
| Document (data : json).

Definition read_json (content : file_content) : exn + json :=
  match content with
  | Unreadable => inl OSError
  | Malformed => inl JSONDecodeError
  | Document data => inr data
  end.

(** What [load_tournament] meets: the answer to the unsaved-changes
    question, the file picked (empty when cancelled), its content, and
    whether handing the tournament to the tabs and refreshing their views
    raises (the tab classes other than [PlayersTab] are not among the
    sources). *)
Record load_env : Type := mkLoadEnv {
  unsaved_reply : save_reply;
  unsaved_save : save_env;
  open_name : string;
  content : file_content;
  refresh_fails : bool
}.

(** A step that only changes the state. *)
Definition act {St} (f : St -> St) : Py St unit := fun st => (inr tt, f st).

Section MainWindow.
Context `{TournamentCodec}.

Definition decode_tournament (data : json) : exn + Tournament.t :=
  match from_dict data with
  | Some T => inr T
  | None => inl DecodeError
  end.

(** The body of the [try] in [load_tournament]. *)
Definition load_tournament_try (env : load_env) : Py App unit :=
  data ← lift (read_json (content env));
  act reset_tournament_state;;
  T ← lift (decode_tournament data);
  act (set_tournament (Some T));;
  gui_state ← lift (py_get data "gui_state" (JObj []));
  index ← lift (py_get gui_state "current_round_index" (JInt 0));
  act (set_current_round_index index);;
  results ← lift (py_get gui_state "last_recorded_results_data" (JArr []));
  act (set_last_recorded_results_data results);;
  act (set_current_filepath (Some (open_name env)));;
  (if refresh_fails env then raise TypeError else act (show ViewsRefreshed));;
  act mark_clean;;
  act (show HistoryMessage);;
  act (show StatusMessage).

(** The [except Exception] clause of [load_tournament]. *)
Definition load_failed (e : exn) : Py App unit :=
  act reset_tournament_state;;
  act (show (MessageBox Critical "Load Error")).

Definition load_tournament (env : load_env) (self : App) : (exn + unit) * App :=
  match check_save_before_proceeding (unsaved_reply env) (unsaved_save env) self with
  | (false, self) => (inr tt, self)
  | (true, self) =>
      if String.eqb (open_name env) "" then (inr tt, self)
      else try_except (load_tournament_try env) [ (is_Exception, load_failed) ] self
  end.

End MainWindow.

(** ** [gui/players_tab.py] *)

(** The [dict] that [PlayerDetailDialog.get_player_data] returns. *)
Record player_data : Type := mkPlayerData {
  data_name : string;
  data_rating : option Z;
  data_gender : option string;
  data_dob : option string;
  data_phone : option string;
  data_email : option string;
  data_club : option string;
  data_federation : option string
}.

(** [self.dirty.emit()]: the main window connects the signal to
    [mark_dirty], called with its default argument. *)
Definition emit_dirty (self : App) : App := mark_dirty true self.

Inductive button : Type := Ok | CancelButton.

(** What [add_player_detailed] meets: the answer to the "New Tournament"
    notice, the data of the accepted dialog ([None] when rejected), and
    the id the [Player] constructor picks. *)
Record add_env : Type := mkAddEnv {
  notice_reply : button;
  add_dialog : option player_data;
  add_id : string
}.

(** [PlayersTab.add_player_detailed] *)
Definition add_player_detailed (env : add_env) (self : App) : App :=
  match tournament self with
  | None =>
      let self := show (MessageBox Information "New Tournament") self in
      match notice_reply env with
      | CancelButton => self
      | Ok => show (SignalEmitted "request_reset_tournament") self
      end
  | Some T =>
      if Tournament.started T
      then show (MessageBox Warning "Tournament Active") self
      else
        match add_dialog env with
        | None => self
        | Some data =>
            if String.eqb (data_name data) ""
            then show (MessageBox Warning "Validation Error") self
            else if name_taken (data_name data) (Tournament.players T)
            then show (MessageBox Warning "Duplicate Player") self
            else
              let new_player :=
                Player_new (add_id env) (data_name data) (data_rating data)
                  (data_gender data) (data_dob data) (data_phone data)
                  (data_email data) (data_club data) (data_federation data) in
              let self :=
                set_registry (<[Player.id new_player := new_player]> (Tournament.players T)) self in
              emit_dirty
                (show HistoryMessage
                  (show StatusMessage
                    (show (PlayerListItemAdded (Player.id new_player)) self)))
        end
  end.

Inductive menu_action : Type := EditAction | WithdrawAction | RemoveAction.

(** What [on_player_context_menu] meets: the player id stored on the
    list item under the pointer ([None]: no item there), the menu entry
    the user triggers, the data of the accepted edit dialog, and the
    answer to the removal question. *)
Record menu_env : Type := mkMenuEnv {
  item : option string;
  triggered : option menu_action;
  edit_dialog : option player_data;
  remove_confirmed : bool
}.

(** [menu.exec]: a disabled entry cannot be triggered. *)
Definition menu_exec (tournament_started : bool) (choice : option menu_action)
  : option menu_action :=
  match choice with
  | Some EditAction | Some RemoveAction => if tournament_started then None else choice
  | _ => choice
  end.

(** The assignments of the edit branch, on the player object. *)
Definition edited (data : player_data) (player : Player.t) : Player.t :=
  Player.mk (Player.id player) (data_name data) (data_rating data)
    (data_gender data) (data_dob data) (data_phone data) (data_email data)
    (data_club data) (data_federation data) (Player.is_active player).

(** [PlayersTab.on_player_context_menu].  The player object is the one
    stored in [tournament.players] under the item's id, so an assignment
    to one of its attributes is an update of that entry. *)
Definition on_player_context_menu (env : menu_env) (self : App) : App :=
  match item env, tournament self with
  | Some player_id, Some T =>
      match Tournament.players T !! player_id with
      | None => self
      | Some player =>
          let tournament_started := Tournament.started T in
          match menu_exec tournament_started (triggered env) with
          | Some EditAction =>
              match edit_dialog env with
              | None => self
              | Some data =>
                  if String.eqb (data_name data) ""
                  then show (MessageBox Warning "Edit Error") self
                  else if negb (String.eqb (data_name data) (Player.name player))
                          && name_taken (data_name data) (Tournament.players T)
                  then show (MessageBox Warning "Edit Error") self
                  else
                    let self :=
                      set_registry (<[player_id := edited data player]> (Tournament.players T)) self in
                    emit_dirty
                      (show HistoryMessage (show (PlayerListItemUpdated (Player.id player)) self))
              end
          | Some WithdrawAction =>
              let player := Player.set_is_active (negb (Player.is_active player)) player in
              let self := set_registry (<[player_id := player]> (Tournament.players T)) self in
              show (SignalEmitted "standings_update_requested")
                (emit_dirty
                  (show HistoryMessage (show (PlayerListItemUpdated (Player.id player)) self)))
          | Some RemoveAction =>
              let self := show (MessageBox Question "Remove Player") self in
              if remove_confirmed env then
                let self :=
                  if bool_decide (is_Some (Tournament.players T !! Player.id player))
                  then show HistoryMessage
                         (set_registry (delete (Player.id player) (Tournament.players T)) self)
                  else self in
                show StatusMessage (show (PlayerListItemRemoved player_id) self)
              else self
          | None => self
          end
      end
  | _, _ => self
  end.

(** One record of [csv.DictReader]: column name to field. *)
Definition csv_row : Type := list (string * string).

(** [row.get(column)] *)
Fixpoint row_get (column : string) (row : csv_row) : option string :=
  match row with
  | [] => None
  | (c, v) :: rest => if String.eqb column c then Some v else row_get column rest
  end.

(** What opening and reading the chosen file gives: [open] raises, or
    the reader yields [rows] and then ends, normally or by raising. *)
Inductive csv_file : Type :=
| CsvUnreadable
| CsvRows (rows : list csv_row) (read_error : bool).

(** What [import_players_csv] meets: the file picked (empty when
    cancelled), its content, and the ids the [Player] constructor picks,
    in order of creation. *)
Record import_env : Type := mkImportEnv {
  import_name : string;
  import_file : csv_file;
  import_ids : nat -> string
}.

(** The builtin [int] on a [str]: [None] when it raises [ValueError]. *)
Class PyInt : Type := {
  int_of_str : string -> option Z
}.

Section CsvImport.
Context `{PyInt}.

(** The inner [try] of the import loop: a rating that [int] rejects
    becomes [None]. *)
Definition row_rating (rating : option string) : option Z :=
  match rating with
  | Some r => if String.eqb r "" then None else int_of_str r
  | None => None
  end.

(** The body of the import loop, on the registry and the counter
    [added]. *)
Definition import_row (ids : nat -> string) (acc : gmap string Player.t * nat)
    (row : csv_row) : gmap string Player.t * nat :=
  let '(players, added) := acc in
  match row_get "Name" row with
  | None => acc
  | Some name =>
      if String.eqb name "" then acc
      else
        let rating := row_rating (row_get "Rating" row) in
        let player :=
          Player_new (ids added) name rating (row_get "Gender" row)
            (row_get "Date of Birth" row) (row_get "Phone" row)
            (row_get "Email" row) (row_get "Club" row) (row_get "Federation" row) in
        (<[Player.id player := player]> players, S added)
  end.

Definition import_rows (ids : nat -> string) (rows : list csv_row)
    (players : gmap string Player.t) : gmap string Player.t * nat :=
  foldl (import_row ids) (players, 0%nat) rows.

(** The body of the [try] in [import_players_csv]; the tournament is
    known to exist.  The loop stores each player as it goes, so a reader
    that raises after some rows leaves those rows imported. *)
Definition import_players_csv_try (env : import_env) (T : Tournament.t) : Py App unit :=
  match import_file env with
  | CsvUnreadable => raise OSError
  | CsvRows rows read_error =>
      let '(players, added) := import_rows (import_ids env) rows (Tournament.players T) in
      act (set_registry players);;
      (if read_error then raise ValueError else mret tt);;
      act (show HistoryMessage);;
      act emit_dirty;;
      act (show PlayerListRefreshed);;
      act (show (MessageBox Information "Import Successful"))
  end.

(** The [except Exception] clause of [import_players_csv]. *)
Definition import_failed (e : exn) : Py App unit :=
  act (show (MessageBox Critical "Import Error")).

(** [PlayersTab.import_players_csv] *)
Definition import_players_csv (env : import_env) (self : App) : (exn + unit) * App :=
  match tournament self with
  | Some T =>
      if Tournament.started T
      then (inr tt, show (MessageBox Warning "Import Error") self)
      else if String.eqb (import_name env) "" then (inr tt, self)
      else try_except (import_players_csv_try env T) [ (is_Exception, import_failed) ] self
  | None => (inr tt, show (MessageBox Warning "No Tournament") self)
  end.

End CsvImport.

(** A [PyInt] instance for running examples: an optional sign and ASCII
    digits.  The builtin also accepts surrounding whitespace,
    underscores between digits and non-ASCII digits. *)
Definition ascii_int (s : string) : option Z :=
  match s with
  | String "-" rest => Z.opp <$> decimal rest
  | String "+" rest => decimal rest
  | _ => decimal s
  end.

Definition ascii_digits : PyInt := {| int_of_str := ascii_int |}.

(** ** A decoder for running examples *)

Definition as_str (v : json) : option string :=
  match v with JStr s => Some s | _ => None end.

Definition as_int (v : json) : option Z :=
  match v with JInt z => Some z | _ => None end.

Definition as_list (v : json) : option (list json) :=
  match v with JArr items => Some items | _ => None end.

Definition as_list_of {A} (decode : json -> option A) (v : json) : option (list A) :=
  as_list v ≫= mapM decode.

(** An optional field: absent or [null] is [None]. *)
Definition optional {A} (decode : json -> option A) (v : option json) : option (option A) :=
  match v with
  | None | Some JNull => Some None
  | Some x => Some <$> decode x
  end.

(** Modelled from the spec: a player record, with the fields of the
    data model. *)
Definition player_of_record (player_id : string) (v : json) : option Player.t :=
  match v with
  | JObj fields =>
      name ← dict_lookup "name" fields ≫= as_str;
      rating ← optional as_int (dict_lookup "rating" fields);
      gender ← optional as_str (dict_lookup "gender" fields);
      dob ← optional as_str (dict_lookup "dob" fields);
      phone ← optional as_str (dict_lookup "phone" fields);
      email ← optional as_str (dict_lookup "email" fields);
      club ← optional as_str (dict_lookup "club" fields);
      federation ← optional as_str (dict_lookup "federation" fields);
      is_active ← match dict_lookup "is_active" fields with
                  | Some (JBool b) => Some b
                  | _ => None
                  end;
      Some (Player.mk player_id name rating gender dob phone email club federation is_active)
  | _ => None
  end.

(** Modelled from the spec: a pairing, two ids or an id and [null] for
    a bye. *)
Definition pairing_of_record (v : json) : option (string * option string) :=
  match v with
  | JArr [JStr a; JStr b] => Some (a, Some b)
  | JArr [JStr a; JNull] => Some (a, None)
  | _ => None
  end.

(** Modelled from the spec: an outcome. *)
Definition outcome_of_record (v : json) : option outcome :=
  match v with
  | JStr "1-0" => Some WhiteWins
  | JStr "1/2-1/2" => Some Draw
  | JStr "0-1" => Some BlackWins
  | JStr "bye" => Some ByePoint
  | _ => None
  end.

(** Modelled from the spec: a round record, [pairings] and, once
    recorded, [results]. *)
Definition round_of_record (v : json)
  : option (list (string * option string) * option (list outcome)) :=
  match v with
  | JObj fields =>
      pairings ← dict_lookup "pairings" fields ≫= as_list_of pairing_of_record;
      results ← optional (as_list_of outcome_of_record) (dict_lookup "results" fields);
      Some (pairings, results)
  | _ => None
  end.

(** Modelled from the spec: the persisted layout of its section 6, a
    single object with [name], [num_rounds], [tiebreak_order], [players]
    (id to player record) and [rounds] (each with [pairings] and, once
    recorded, [results]); any other shape is a decoding error.  It stands
    in for [Tournament.from_dict] of [core/tournament.py] where an
    example needs a concrete decoder. *)
Definition from_record (data : json) : option Tournament.t :=
  match data with
  | JObj fields =>
      name ← dict_lookup "name" fields ≫= as_str;
      num_rounds ← dict_lookup "num_rounds" fields ≫= as_int;
      tiebreak_order ← dict_lookup "tiebreak_order" fields ≫= as_list_of as_str;
      players ← match dict_lookup "players" fields with
                | Some (JObj records) =>
                    mapM (M := option) (λ kv, pair kv.1 <$> player_of_record kv.1 kv.2) records
                | _ => None
                end;
      rounds ← dict_lookup "rounds" fields ≫= as_list_of round_of_record;
      Some (Tournament.mk name (list_to_map players) num_rounds tiebreak_order
              (fst <$> rounds) (omap snd rounds))
  | _ => None
  end.

Definition record_codec : TournamentCodec := {| from_dict := from_record |}.

(** ** Notions the statements below use *)

(** The release a fetch delivers: the object in the body of a response
    that [raise_for_status] lets through. *)
Definition fetched_release (fd : feed) : option (list (string * json)) :=
  match fd with
  | Response status_code (Some (JObj release)) =>
      if (400 <=? status_code) && (status_code <? 600) then None else Some release
  | _ => None
  end.

(** The tag of a release: its ["tag_name"] when that is a string,
    ["0.0.0"] when the release has none. *)
Definition release_tag (release : list (string * json)) : option string :=
  match dict_lookup "tag_name" release with
  | None => Some "0.0.0"
  | Some (JStr tag) => Some tag
  | Some _ => None
  end.

(** [tag], without its leading [v]s, parses to a version strictly
    greater than the one [current] parses to. *)
Definition newer_than `{Packaging} (tag current : string) : Prop :=
  ∃ latest installed,
    parse_version (lstrip ["v"%char] tag) = Some latest ∧
    parse_version current = Some installed ∧
    version_gt latest installed = true.

(** The ways an update check fails: each makes a statement of the [try]
    block raise. *)
Inductive check_failure `{Packaging} (current : string) : feed -> Prop :=
| network_error :
    check_failure current Unreachable
| error_status status_code body :
    400 <= status_code < 600 ->
    check_failure current (Response status_code body)
| body_not_json status_code :
    check_failure current (Response status_code None)
| body_not_an_object status_code v :
    (∀ release, v ≠ JObj release) ->
    check_failure current (Response status_code (Some v))
| tag_not_a_string status_code release :
    release_tag release = None ->
    check_failure current (Response status_code (Some (JObj release)))
| tag_unparseable status_code release tag :
    release_tag release = Some tag ->
    parse_version (lstrip ["v"%char] tag) = None ->
    check_failure current (Response status_code (Some (JObj release)))
| current_unparseable status_code release :
    parse_version current = None ->
    check_failure current (Response status_code (Some (JObj release))).

(** An exception of the [try] block is an [Exception] and leaves the
    version string alone. *)
Definition caught (r : (exn + bool) * Updater) (self : Updater) : Prop :=
  ∃ e self', r = (inl e, self') ∧ is_Exception e = true ∧
             current_version self' = current_version self.

(** The release information [get_download_url] is written for: nothing
    fetched, or an object whose ["assets"], when present, is a list
    whose first element, if there is one, is an object. *)
Definition release_shaped (info : json) : bool :=
  match info with
  | JNull => true
  | JObj release =>
      match dict_lookup "assets" release with
      | None | Some (JArr []) | Some (JArr (JObj _ :: _)) => true
      | Some _ => false
      end
  | _ => false
  end.

(** No two entries of the registry carry the same name. *)
Definition names_unique (players : gmap string Player.t) : Prop :=
  ∀ i j p q,
    players !! i = Some p -> players !! j = Some q ->
    Player.name p = Player.name q -> i = j.

(** The ways loading a file fails: each makes a statement of the [try]
    block of [load_tournament] raise. *)
Inductive load_failure `{TournamentCodec} (env : load_env) : Prop :=
| file_unreadable :
    content env = Unreadable -> load_failure env
| file_malformed :
    content env = Malformed -> load_failure env
| record_undecodable data :
    content env = Document data -> from_dict data = None -> load_failure env
| gui_state_misshapen data e :
    content env = Document data ->
    (py_get data "gui_state" (JObj []) = inl e ∨
     ∃ gui_state, py_get data "gui_state" (JObj []) = inr gui_state ∧
                  py_get gui_state "current_round_index" (JInt 0) = inl e) ->
    load_failure env
| views_raise data :
    content env = Document data -> refresh_fails env = true -> load_failure env.

(** A warning or an error was shown. *)
Definition is_error_report (ev : ui_event) : bool :=
  match ev with
  | MessageBox Warning _ | MessageBox Critical _ => true
  | _ => false
  end.

(** The registry of the current tournament, empty when there is none. *)
Definition registry (self : App) : gmap string Player.t :=
  from_option Tournament.players ∅ (tournament self).

(** ** Sample data *)

Definition alice : Player.t :=
  Player_new "p1" "Alice" (Some 1500) None None None None (Some "Riverside") None.

(** A tournament with one registered player and no round paired. *)
Definition club_open : Tournament.t :=
  Tournament.mk "Club Open" {[ "p1" := alice ]} 3 ["buchholz"; "wins"] [] [].

(** The same tournament after its first round was paired and recorded. *)
Definition club_open_paired : Tournament.t :=
  Tournament.mk "Club Open" {[ "p1" := alice ]} 3 ["buchholz"; "wins"]
    [[("p1", None)]] [[ByePoint]].

(** The shell right after [T] was created or loaded. *)
Definition app_with (T : Tournament.t) : App := set_tournament (Some T) App_init.

Definition data_named (name : string) : player_data :=
  mkPlayerData name (Some 1480) None None None None None None.

(** A file with one row, [Name,Rating]. *)
Definition one_row_file (name rating : string) : csv_file :=
  CsvRows [[("Name", name); ("Rating", rating)]] false.

Definition import_of (file : csv_file) : import_env :=
  mkImportEnv "players.csv" file (λ n, "p" +:+ String (ascii_of_nat (50 + n)) "").

(** A release as the feed serves it, with one asset. *)
Definition release_2_0_0 : json :=
  JObj [("tag_name", JStr "v2.0.0");
        ("body", JStr "Fixes.");
        ("assets", JArr [JObj [("name", JStr "setup.exe");
                               ("browser_download_url", JStr "https://example.org/setup.exe")]])].

(** A persisted record that lacks most of its fields. *)
Definition truncated_record : json := JObj [("name", JStr "Club Open")].

Definition load_of (content : file_content) : load_env :=
  mkLoadEnv Discard (mkSaveEnv "" false) "club.json" content false.

(** ** More of [gui/mainwindow.py] *)

(** The line the status bar ends up showing. *)
Inductive status_line : Type :=
| Ready
| AddPlayersThenStart (registered : nat)
| EnterResults (round : Z)
| PrepareRound (round : Z)
| TournamentFinished
| InProgress (completed total : Z).

(** What [_update_ui_state] enables, and the status it shows. *)
Record actions : Type := mkActions {
  start_action : bool;
  prepare_round_action : bool;
  record_results_action : bool;
  undo_results_action : bool;
  save_action : bool;
  save_as_action : bool;
  export_standings_action : bool;
  import_players_action : bool;
  export_players_action : bool;
  add_player_action : bool;
  settings_action : bool;
  status : status_line
}.

(** [_update_ui_state], for an integer [current_round_index] (what
    [__init__], [reset_tournament_state] and [_on_round_completed] store);
    [undo_data] is [bool(self.last_recorded_results_data)].  Without a
    tournament every [and] stops at [tournament_exists]. *)
Definition enabled_actions (T : option Tournament.t) (results_recorded : Z)
    (undo_data : bool) : actions :=
  match T with
  | None =>
      mkActions false false false false false false false false false true false Ready
  | Some T =>
      let pairings_generated := Z.of_nat (length (Tournament.rounds_pairings_ids T)) in
      let total_rounds := Tournament.num_rounds T in
      let tournament_started := 0 <? pairings_generated in
      let tournament_finished := (total_rounds <=? results_recorded) && (0 <? total_rounds) in
      let can_start := negb tournament_started in
      let can_prepare :=
        tournament_started && (pairings_generated =? results_recorded)
        && negb tournament_finished in
      let can_record :=
        tournament_started && (results_recorded <? pairings_generated)
        && negb tournament_finished in
      let can_undo := (0 <? results_recorded) && undo_data in
      mkActions can_start can_prepare can_record can_undo true true
        (0 <? results_recorded)
        (negb tournament_started)
        (0 <? Z.of_nat (size (Tournament.players T)))
        (negb tournament_started)
        true
        (if negb tournament_started then AddPlayersThenStart (size (Tournament.players T))
         else if can_record then EnterResults (results_recorded + 1)
         else if can_prepare then PrepareRound (results_recorded + 1)
         else if (results_recorded =? total_rounds) && (0 <? total_rounds)
              then TournamentFinished
         else InProgress results_recorded total_rounds)
  end.

(** [_on_round_completed], the definition the class ends up with (the
    second of the two). *)
Definition _on_round_completed (round_index : Z) (self : App) : App :=
  mark_dirty true (set_current_round_index (JInt round_index) self).

(** Modelled from the spec: the constructor of [core/tournament.py],
    called as [Tournament(players, num_rounds=..., tiebreak_order=...)]:
    a tournament is created with the given players in its registry and
    no round.  The name a new tournament carries is an input. *)
Definition Tournament_new (name : string) (players : list Player.t) (num_rounds : Z)
    (tiebreak_order : list string) : Tournament.t :=
  Tournament.mk name (list_to_map ((λ p, (Player.id p, p)) <$> players))
    num_rounds tiebreak_order [] [].

(** [prompt_new_tournament]; [default_name] is the name of a new
    tournament and [DEFAULT_TIEBREAK_SORT_ORDER] the constant of
    [core/constants.py], neither among the sources. *)
Definition prompt_new_tournament (default_name : string)
    (DEFAULT_TIEBREAK_SORT_ORDER : list string)
    (reply : save_reply) (env : save_env) (dialog : option (Z * list string))
    (self : App) : App :=
  match check_save_before_proceeding reply env self with
  | (false, self) => self
  | (true, self) =>
      let self := reset_tournament_state self in
      let self :=
        set_tournament
          (Some (Tournament_new default_name [] 3 DEFAULT_TIEBREAK_SORT_ORDER)) self in
      match show_settings_dialog dialog self with
      | (true, self) =>
          let self := mark_dirty true (show HistoryMessage self) in
          let order := from_option Tournament.tiebreak_order [] (tournament self) in
          show (StandingsHeadersUpdated order) (show ViewsRefreshed self)
      | (false, self) => reset_tournament_state self
      end
  end.

(** [prompt_update]: the value handed to [webbrowser.open], if the call
    is reached, and the shell afterwards.  [download_clicked] tells
    whether the user leaves the box by its Download button. *)
Definition prompt_update (updater : option Updater) (download_clicked : bool)
    (self : App) : exn + (option json * App) :=
  match updater with
  | None => inr (None, self)
  | Some u =>
      if negb (truthy (latest_version_info u)) then inr (None, self)
      else
        match get_latest_version u with
        | inl e => inl e
        | inr latest_version =>
            match get_release_notes u with
            | inl e => inl e
            | inr release_notes =>
                match get_download_url u with
                | inl e => inl e
                | inr download_url =>
                    if negb (truthy latest_version && truthy release_notes
                             && truthy download_url)
                    then inr (None, show (MessageBox Warning "Update Error") self)
                    else
                      let self := show (MessageBox Information "Update Available") self in
                      inr (if download_clicked then Some download_url else None, self)
                end
            end
        end
  end.

Section UpdateChecks.
Context `{Packaging}.

(** [check_for_updates_manual]: the value handed to [webbrowser.open],
    the updater and the shell afterwards. *)
Definition check_for_updates_manual (updater : option Updater) (fd : feed)
    (download_clicked : bool) (self : App)
  : exn + (option json * option Updater * App) :=
  match updater with
  | None => inr (None, None, show (MessageBox Information "Update Check") self)
  | Some u =>
      let self := show StatusMessage self in
      match check_for_updates fd u with
      | (inl e, u) => inl e
      | (inr true, u) =>
          match prompt_update (Some u) download_clicked self with
          | inl e => inl e
          | inr (opened, self) => inr (opened, Some u, self)
          end
      | (inr false, u) =>
          inr (None, Some u,
               show (MessageBox Information "Update Check") (show StatusMessage self))
      end
  end.

(** [check_for_updates_auto] *)
Definition check_for_updates_auto (updater : option Updater) (fd : feed)
    (download_clicked : bool) (self : App)
  : exn + (option json * option Updater * App) :=
  match updater with
  | None => inr (None, None, self)
  | Some u =>
      match check_for_updates fd u with
      | (inl e, u) => inl e
      | (inr true, u) =>
          match prompt_update (Some u) download_clicked self with
          | inl e => inl e
          | inr (opened, self) => inr (opened, Some u, self)
          end
      | (inr false, u) => inr (None, Some u, self)
      end
  end.

End UpdateChecks.

(** ** More of [gui/players_tab.py] *)

(** [PlayersTab.update_ui_state]: whether the "Add New Player" button is
    enabled. *)
Definition add_button_enabled (self : App) : bool :=
  match tournament self with
  | None => false
  | Some T => negb (Tournament.started T)
  end.

(** ** Notions the further statements use *)

(** The rows the import loop does not skip. *)
Definition named (row : csv_row) : bool :=
  match row_get "Name" row with
  | Some name => negb (String.eqb name "")
  | None => false
  end.

(** The player the import loop builds from a named row. *)
Definition player_of_row `{PyInt} (new_id : string) (row : csv_row) : Player.t :=
  Player_new new_id (default "" (row_get "Name" row))
    (row_rating (row_get "Rating" row)) (row_get "Gender" row)
    (row_get "Date of Birth" row) (row_get "Phone" row) (row_get "Email" row)
    (row_get "Club" row) (row_get "Federation" row).

(** The ids of a registry are the ids its players carry. *)
Definition ids_consistent (players : gmap string Player.t) : Prop :=
  ∀ i p, players !! i = Some p -> Player.id p = i.

(** A player with the flag that withdrawing toggles set aside. *)
Definition apart_from_is_active (p : Player.t) : Player.t := Player.set_is_active true p.

(** ** More sample data *)

Definition bob : Player.t :=
  Player.mk "p2" "Bob" None None None None None None None false.

(** Two registered players, one of them withdrawn, no round paired. *)
Definition club_open_two : Tournament.t :=
  Tournament.mk "Club Open" (<["p2" := bob]> {[ "p1" := alice ]}) 3
    ["buchholz"; "wins"] [] [].

(** A persisted tournament after one recorded round, as [save_tournament]
    writes it, [gui_state] included. *)
Definition club_open_record : json :=
  JObj [("name", JStr "Club Open");
        ("num_rounds", JInt 3);
        ("tiebreak_order", JArr [JStr "buchholz"; JStr "wins"]);
        ("players", JObj [("p1", JObj [("name", JStr "Alice"); ("rating", JInt 1500);
                                       ("club", JStr "Riverside");
                                       ("is_active", JBool true)])]);
        ("rounds", JArr [JObj [("pairings", JArr [JArr [JStr "p1"; JNull]]);
                               ("results", JArr [JStr "bye"])]]);
        ("gui_state", JObj [("current_round_index", JInt 1);
                            ("last_recorded_results_data", JArr [])])].

(** The shell with unsaved changes to [T]. *)
Definition dirty_app_with (T : Tournament.t) : App := set_dirty true (app_with T).

(** A file with a row that has no name between two that have one. *)
Definition three_row_file : list csv_row :=
  [[("Name", "Bob"); ("Rating", "1480")];
   [("Name", ""); ("Rating", "1700")];
   [("Name", "Carol"); ("Rating", "")]].

(** * Properties *)

(** ** The update checker *)

Section UpdaterFacts.
Context `{Packaging}.

(** Without a response the [try] block stops at its first statement. *)
Lemma check_for_updates_try_unreachable self :
  check_for_updates_try Unreachable self = (inl ConnectionError, self).
Proof. reflexivity. Qed.

(** The [try] block on a response, statement by statement. *)
Lemma check_for_updates_try_response self status_code body :
  check_for_updates_try (Response status_code body) self =
  if (400 <=? status_code) && (status_code <? 600) then (inl HTTPError, self)
  else match body with
       | None => (inl RequestsJSONDecodeError, self)
       | Some info =>
           let self' := mkUpdater (current_version self) info in
           match py_get info "tag_name" (JStr "0.0.0") with
           | inl e => (inl e, self')
           | inr tag_name =>
               match py_lstrip tag_name ["v"%char] with
               | inl e => (inl e, self')
               | inr s =>
                   match parse_version s with
                   | None => (inl InvalidVersion, self')
                   | Some latest =>
                       match parse_version (current_version self) with
                       | None => (inl InvalidVersion, self')
                       | Some current => (inr (version_gt latest current), self')
                       end
                   end
               end
           end
       end.
Proof.
  unfold check_for_updates_try, mbind, py_mbind, py_bind, lift, raise_for_status, requests_get.
  cbn [fst snd].
  destruct ((400 <=? status_code) && (status_code <? 600)); [reflexivity|].
  destruct body as [info|]; [|reflexivity].
  cbn.
  destruct (py_get info "tag_name" (JStr "0.0.0")) as [e|tag_name]; [reflexivity|].
  destruct (py_lstrip tag_name ["v"%char]) as [e|s]; [reflexivity|].
  unfold parse.
  destruct (parse_version s); [|reflexivity].
  destruct (parse_version (current_version self)); reflexivity.
Qed.

(** The three [except] clauses together catch every [Exception]. *)
Lemma check_handled (body : Py Updater bool) self :
  try_except body
    [ (is_RequestException, update_check_failed);
      (is_JSONDecodeError, update_check_failed);
      (is_Exception, update_check_failed) ] self =
  match body self with
  | (inr b, self') => (inr b, self')
  | (inl e, self') =>
      if is_Exception e then (inr false, mkUpdater (current_version self') JNull)
      else (inl e, self')
  end.
Proof.
  unfold try_except. destruct (body self) as [[e|b] self']; [|reflexivity].
  destruct e; reflexivity.
Qed.

(** C1: [check_for_updates] returns [True] exactly when the fetched
    release's tag ([tag_name] without its leading [v]s, ["0.0.0"] when the
    release has none) parses to a version strictly greater than the one
    [current_version] parses to. *)
Theorem check_for_updates_true_iff_newer (self : Updater) (fd : feed) :
  (check_for_updates fd self).1 = inr true ↔
  ∃ release tag,
    fetched_release fd = Some release ∧
    release_tag release = Some tag ∧
    newer_than tag (current_version self).
Proof.
  unfold check_for_updates. rewrite check_handled.
  destruct fd as [|status_code body]; cbn.
  { split; [discriminate|]. intros (? & ? & ? & _); discriminate. }
  rewrite check_for_updates_try_response. unfold fetched_release, newer_than.
  destruct ((400 <=? status_code) && (status_code <? 600)); cbn.
  { split; [discriminate|]. intros (? & ? & Hf & _).
    destruct body as [[]|]; discriminate. }
  destruct body as [info|]; cbn.
  2:{ split; [discriminate|]. intros (? & ? & ? & _); discriminate. }
  destruct info as [ | | | | |items|release]; cbn;
    try (split; [discriminate|]; intros (? & ? & ? & _); discriminate).
  split.
  - destruct (dict_lookup "tag_name" release) as [v|] eqn:Htag; cbn.
    + destruct v as [ | | | |tag| | ]; cbn; try discriminate.
      destruct (parse_version (lstrip ["v"%char] tag)) as [latest|] eqn:Hl; [|discriminate].
      destruct (parse_version (current_version self)) as [installed|] eqn:Hc; [|discriminate].
      intros [= Hgt]. exists release, tag. unfold release_tag. rewrite Htag. eauto 8.
    + destruct (parse_version "0.0.0") as [latest|] eqn:Hl; [|discriminate].
      destruct (parse_version (current_version self)) as [installed|] eqn:Hc; [|discriminate].
      intros [= Hgt]. exists release, "0.0.0". unfold release_tag. rewrite Htag. eauto 8.
  - intros (? & tag & [= <-] & Htag & latest & installed & Hl & Hc & Hgt).
    unfold release_tag in Htag.
    destruct (dict_lookup "tag_name" release) as [v|]; cbn.
    + destruct v; try discriminate. injection Htag as ->.
      unfold py_lstrip. rewrite Hl, Hc. by rewrite Hgt.
    + injection Htag as <-. cbn in Hl. rewrite Hl, Hc. by rewrite Hgt.
Qed.

(** Each listed failure raises inside the [try] block. *)
Lemma check_failure_raises self fd :
  check_failure (current_version self) fd ->
  caught (check_for_updates_try fd self) self.
Proof.
  unfold caught.
  destruct 1 as [ |status_code body Hs|status_code|status_code v Hv
                |status_code release Ht|status_code release tag Ht Hp
                |status_code release Hc];
    [by eauto|rewrite check_for_updates_try_response..].
  - replace ((400 <=? status_code) && (status_code <? 600)) with true by lia.
    by eauto.
  - destruct (_ && _); by eauto.
  - destruct (_ && _); [by eauto|].
    destruct v; try (by cbn; eauto). by destruct (Hv fields).
  - destruct (_ && _); [by eauto|]. cbn.
    unfold release_tag in Ht.
    destruct (dict_lookup "tag_name" release) as [[]|]; try discriminate;
      by cbn; eauto.
  - destruct (_ && _); [by eauto|]. cbn.
    unfold release_tag in Ht.
    destruct (dict_lookup "tag_name" release) as [[]|]; try discriminate;
      injection Ht as <-; cbn in *; rewrite Hp; by eauto.
  - destruct (_ && _); [by eauto|]. cbn. rewrite Hc.
    destruct (py_lstrip _ _) as [e|s] eqn:Hs.
    + destruct (default _ _); try discriminate; injection Hs as <-; by eauto.
    + destruct (parse_version s); by eauto.
Qed.

(** Nothing else raises there. *)
Lemma raise_is_check_failure self fd e self' :
  check_for_updates_try fd self = (inl e, self') ->
  check_failure (current_version self) fd.
Proof.
  destruct fd as [|status_code body]; [intros _; constructor|].
  rewrite check_for_updates_try_response.
  destruct (_ && _) eqn:Hs; [intros _; apply error_status; lia|].
  destruct body as [info|]; [|intros _; apply body_not_json].
  destruct info; try (intros _; by apply body_not_an_object).
  cbn. destruct (dict_lookup "tag_name" fields) as [v|] eqn:Htag; cbn.
  - destruct v; try (intros _; apply tag_not_a_string; unfold release_tag;
                     by rewrite Htag).
    cbn. destruct (parse_version (lstrip _ s)) eqn:Hp.
    + destruct (parse_version (current_version self)) eqn:Hc; [discriminate|].
      intros _. by apply current_unparseable.
    + intros _. apply tag_unparseable with s; [|done].
      unfold release_tag. by rewrite Htag.
  - destruct (parse_version "0.0.0") eqn:Hp.
    + destruct (parse_version (current_version self)) eqn:Hc; [discriminate|].
      intros _. by apply current_unparseable.
    + intros _. apply tag_unparseable with "0.0.0"; [|done].
      unfold release_tag. by rewrite Htag.
Qed.

(** C9, as amended: [check_for_updates] returns a boolean whatever the
    fetch meets; on each failure of [check_failure] (no response, a 4xx
    or 5xx status, a body that is not JSON or not an object, a tag that
    is not a string, a tag or a current version that does not parse) it
    returns [False] with [latest_version_info] reset to [None]; and every
    exception of the [try] block is one of these failures. *)
Theorem check_for_updates_never_raises (self : Updater) (fd : feed) :
  (∃ available self', check_for_updates fd self = (inr available, self')) ∧
  (check_failure (current_version self) fd ->
   check_for_updates fd self = (inr false, mkUpdater (current_version self) JNull)) ∧
  (∀ e self', check_for_updates_try fd self = (inl e, self') ->
   check_failure (current_version self) fd).
Proof.
  split; [|split].
  - unfold check_for_updates. rewrite check_handled.
    destruct (check_for_updates_try fd self) as [[e|b] self'] eqn:Hbody; [|by eauto].
    pose proof (raise_is_check_failure _ _ _ _ Hbody) as Hf.
    apply check_failure_raises in Hf as (e' & st & Heq & He & _).
    rewrite Hbody in Heq. injection Heq as <- <-. rewrite He. by eauto.
  - intros Hf. apply check_failure_raises in Hf as (e & st & Heq & He & Hcur).
    unfold check_for_updates. rewrite check_handled, Heq, He. by rewrite Hcur.
  - intros e self'. apply raise_is_check_failure.
Qed.

End UpdaterFacts.

(** [get_download_url] on an object, after the test for the key. *)
Lemma get_download_url_object (current : string) (release : list (string * json)) :
  get_download_url (mkUpdater current (JObj release)) =
  match dict_lookup "assets" release with
  | None => inr JNull
  | Some assets =>
      if truthy assets
      then match py_getitem_0 assets with
           | inl e => inl e
           | inr asset => py_get asset "browser_download_url" JNull
           end
      else inr JNull
  end.
Proof.
  unfold get_download_url. cbn [latest_version_info].
  destruct release as [|field release']; [done|].
  set (release := field :: release'). cbn [truthy py_contains py_getitem_key].
  destruct (dict_lookup "assets" release) as [assets|]; [|done].
  by rewrite bool_decide_eq_true_2 by eauto.
Qed.

(** C10, as amended: on release information that is [None] or an object
    whose ["assets"], when present, is a list whose first element, if
    any, is an object, [get_download_url] raises nothing: it returns
    [None] when nothing was fetched, when there is no ["assets"] key or
    the list is empty, and else the first asset's
    ["browser_download_url"] ([None] when that key is absent). *)
Theorem get_download_url_release_shaped (self : Updater) :
  release_shaped (latest_version_info self) = true ->
  (∃ url, get_download_url self = inr url) ∧
  (latest_version_info self = JNull -> get_download_url self = inr JNull) ∧
  (∀ release,
     latest_version_info self = JObj release ->
     dict_lookup "assets" release = None ->
     get_download_url self = inr JNull) ∧
  (∀ release,
     latest_version_info self = JObj release ->
     dict_lookup "assets" release = Some (JArr []) ->
     get_download_url self = inr JNull) ∧
  (∀ release asset others,
     latest_version_info self = JObj release ->
     dict_lookup "assets" release = Some (JArr (JObj asset :: others)) ->
     get_download_url self =
     inr (default JNull (dict_lookup "browser_download_url" asset))).
Proof.
  destruct self as [current info]. cbn [latest_version_info]. intros Hshape.
  split; [|split; [|split; [|split]]].
  - destruct info as [ | | | | | |release]; try discriminate; [by eexists|].
    rewrite get_download_url_object. cbn in Hshape.
    destruct (dict_lookup "assets" release) as [[ | | | | |[|[] ?]| ]|];
      try discriminate; by eexists.
  - by intros ->.
  - intros release -> Hassets. by rewrite get_download_url_object, Hassets.
  - intros release -> Hassets. by rewrite get_download_url_object, Hassets.
  - intros release asset others -> Hassets.
    by rewrite get_download_url_object, Hassets.
Qed.

(** ** The shell *)

(** [name_taken] finds exactly the names carried by an entry. *)
Lemma name_taken_true (name : string) (players : gmap string Player.t) :
  name_taken name players = true ↔
  ∃ i p, players !! i = Some p ∧ Player.name p = name.
Proof.
  unfold name_taken. rewrite existsb_exists. split.
  - intros (p & Hin & Hname). apply list_elem_of_In, list_elem_of_fmap in Hin.
    destruct Hin as ([i p'] & -> & Hin). apply elem_of_map_to_list in Hin.
    apply String.eqb_eq in Hname. by eauto.
  - intros (i & p & Hp & Hname). exists p. split; [|by apply String.eqb_eq].
    apply list_elem_of_In, list_elem_of_fmap. exists (i, p).
    split; [done|]. by apply elem_of_map_to_list.
Qed.

(** Whatever the flag was, [mark_dirty] leaves it at its argument. *)
Lemma mark_dirty_set (dirty : bool) (self : App) :
  mark_dirty dirty self = set_dirty dirty self.
Proof.
  unfold mark_dirty. case_bool_decide as Hd; [done|].
  destruct self as [? ? ? ? d ?]; cbn in *. unfold set_dirty; cbn.
  f_equal. by destruct d, dirty.
Qed.

(** C3: when the submitted name is empty or is the name of a registered
    player, [add_player_detailed] creates no player: the tournament,
    registry included, is the one before the call, and the only effect
    is a warning shown to the user. *)
Theorem add_player_detailed_rejects (env : add_env) (self : App)
    (T : Tournament.t) (data : player_data) :
  tournament self = Some T ->
  add_dialog env = Some data ->
  data_name data = "" ∨
    (∃ i p, Tournament.players T !! i = Some p ∧ Player.name p = data_name data) ->
  tournament (add_player_detailed env self) = Some T ∧
  ∃ title, add_player_detailed env self = show (MessageBox Warning title) self.
Proof.
  intros HT Hdata Hbad. unfold add_player_detailed. rewrite HT, Hdata.
  destruct (Tournament.started T); [by eauto|].
  destruct (String.eqb_spec (data_name data) "") as [Hempty|Hname]; [by eauto|].
  destruct Hbad as [Hempty|Hdup]; [done|].
  apply name_taken_true in Hdup. rewrite Hdup. by eauto.
Qed.

(** Storing a player under any id keeps names unique when the name is free. *)
Lemma names_unique_insert (players : gmap string Player.t) (i : string) (p : Player.t) :
  names_unique players ->
  name_taken (Player.name p) players = false ->
  names_unique (<[i := p]> players).
Proof.
  intros Huniq Hfree j k q r Hj Hk Hname.
  assert (Hno : ∀ l x, players !! l = Some x -> Player.name x ≠ Player.name p).
  { intros l x Hl Hx. apply not_true_iff_false in Hfree. apply Hfree.
    apply name_taken_true. by eauto. }
  destruct (decide (i = j)) as [<-|Hij], (decide (i = k)) as [<-|Hik]; [done|..].
  - rewrite lookup_insert_eq in Hj. rewrite lookup_insert_ne in Hk by done.
    injection Hj as <-. by destruct (Hno _ _ Hk).
  - rewrite lookup_insert_eq in Hk. rewrite lookup_insert_ne in Hj by done.
    injection Hk as <-. by destruct (Hno _ _ Hj).
  - rewrite lookup_insert_ne in Hj, Hk by done. by eapply Huniq.
Qed.

(** The dialog path keeps names unique: it refuses a name that is
    taken. *)
Lemma add_player_detailed_keeps_names_unique (env : add_env) (self : App) (T : Tournament.t) :
  tournament self = Some T ->
  names_unique (Tournament.players T) ->
  ∃ T', tournament (add_player_detailed env self) = Some T' ∧
        names_unique (Tournament.players T').
Proof.
  intros HT Huniq. unfold add_player_detailed. rewrite HT.
  destruct (Tournament.started T); [by eauto|].
  destruct (add_dialog env) as [data|]; [|by eauto].
  destruct (String.eqb (data_name data) ""); [by eauto|].
  destruct (name_taken _ _) eqn:Hfree; [by eauto|].
  unfold emit_dirty. rewrite mark_dirty_set. cbn. rewrite HT. cbn.
  eexists; split; [done|]. cbn. by apply names_unique_insert.
Qed.

(** C8: the withdraw/reactivate action negates the [is_active] flag of
    the player under the pointer and nothing else: the player stays in
    the registry with every other attribute as before, the other entries
    are untouched, and so are the pairings, the results and the rest of
    the tournament. *)
Theorem withdraw_toggles_is_active_only (env : menu_env) (self : App)
    (T : Tournament.t) (player_id : string) (player : Player.t) :
  tournament self = Some T ->
  item env = Some player_id ->
  Tournament.players T !! player_id = Some player ->
  triggered env = Some WithdrawAction ->
  ∃ T' player',
    tournament (on_player_context_menu env self) = Some T' ∧
    Tournament.players T' !! player_id = Some player' ∧
    Player.is_active player' = negb (Player.is_active player) ∧
    Player.set_is_active (Player.is_active player) player' = player ∧
    (∀ other, other ≠ player_id ->
       Tournament.players T' !! other = Tournament.players T !! other) ∧
    Tournament.rounds_pairings_ids T' = Tournament.rounds_pairings_ids T ∧
    Tournament.rounds_results T' = Tournament.rounds_results T ∧
    Tournament.set_players (Tournament.players T) T' = T.
Proof.
  intros HT Hitem Hplayer Haction. unfold on_player_context_menu.
  rewrite Hitem, HT, Hplayer, Haction. cbn [menu_exec].
  unfold emit_dirty. rewrite mark_dirty_set. cbn. rewrite HT. cbn.
  eexists _, _. split; [done|]. cbn. rewrite lookup_insert_eq.
  split; [done|]. split; [done|]. split; [by destruct player|].
  split; [intros other Hother; by rewrite lookup_insert_ne|].
  split; [done|]. split; [done|]. by destruct T.
Qed.

(** C5: once a round has been paired, the settings dialog leaves
    [num_rounds] as it was, whatever the dialog returns; [num_rounds]
    changes only while no round has been paired. *)
Theorem settings_keep_num_rounds_once_paired (dialog : option (Z * list string))
    (self : App) (T : Tournament.t) :
  tournament self = Some T ->
  ∃ T',
    tournament (show_settings_dialog dialog self).2 = Some T' ∧
    (Tournament.rounds_pairings_ids T ≠ [] ->
     Tournament.num_rounds T' = Tournament.num_rounds T) ∧
    (Tournament.num_rounds T' ≠ Tournament.num_rounds T ->
     Tournament.rounds_pairings_ids T = []).
Proof.
  intros HT. unfold show_settings_dialog. rewrite HT.
  destruct dialog as [[new_rounds new_tiebreaks]|];
    [|exists T; cbn; rewrite HT; by repeat split].
  unfold Tournament.started.
  destruct (Tournament.rounds_pairings_ids T) as [|round rounds] eqn:Hrounds; cbn.
  - rewrite andb_true_r.
    destruct (bool_decide (Tournament.num_rounds T ≠ new_rounds)); cbn;
      destruct (bool_decide (Tournament.tiebreak_order T ≠ new_tiebreaks));
      rewrite ?mark_dirty_set; cbn;
      eexists; (split; [done|]); by split.
  - rewrite andb_false_r.
    destruct (bool_decide (Tournament.tiebreak_order T ≠ new_tiebreaks));
      rewrite ?mark_dirty_set; cbn; rewrite ?HT;
      eexists; (split; [done|]); by split.
Qed.

(** C6: before or after pairing has started, accepting the settings
    dialog with a different tiebreak order stores that order, refreshes
    the standings table under it, and leaves pairings, results and
    registry as they were. *)
Theorem settings_tiebreaks_leave_ledger (new_rounds : Z) (new_tiebreaks : list string)
    (self : App) (T : Tournament.t) :
  tournament self = Some T ->
  new_tiebreaks ≠ Tournament.tiebreak_order T ->
  ∃ T' shown,
    show_settings_dialog (Some (new_rounds, new_tiebreaks)) self =
      (true, mkApp (Some T') (current_round_index self)
               (last_recorded_results_data self) (_current_filepath self) true
               (shown ++ [StandingsTableUpdated new_tiebreaks])) ∧
    Tournament.tiebreak_order T' = new_tiebreaks ∧
    Tournament.rounds_pairings_ids T' = Tournament.rounds_pairings_ids T ∧
    Tournament.rounds_results T' = Tournament.rounds_results T ∧
    Tournament.players T' = Tournament.players T.
Proof.
  intros HT Hnew. unfold show_settings_dialog. rewrite HT.
  destruct (bool_decide _ && negb _); cbn [Tournament.tiebreak_order Tournament.set_num_rounds];
    rewrite (bool_decide_eq_true_2 (Tournament.tiebreak_order T ≠ new_tiebreaks)) by done;
    rewrite !mark_dirty_set; cbn; eexists _, _; (split; [reflexivity|done]).
Qed.

(** [get] raises only on a value that has no such method. *)
Lemma py_get_raises (v : json) (k : string) (dflt : json) (e : exn) :
  py_get v k dflt = inl e -> e = AttributeError.
Proof. destruct v; cbn; congruence. Qed.

Section LoadFacts.
Context `{TournamentCodec}.

(** Each listed failure raises an [Exception] inside the [try] block. *)
Lemma load_failure_raises (env : load_env) (self : App) :
  load_failure env ->
  ∃ e self', load_tournament_try env self = (inl e, self') ∧ is_Exception e = true.
Proof.
  unfold load_tournament_try, mbind, py_mbind, py_bind, lift, act, decode_tournament.
  destruct 1 as [Hc|Hc|data Hc Hd|data e Hc Hg|data Hc Hr]; rewrite Hc; cbn.
  - by eauto.
  - by eauto.
  - rewrite Hd. by eauto.
  - destruct (from_dict data); [|by eauto].
    destruct Hg as [Hg|(gui_state & Hg & Hi)]; rewrite Hg.
    + apply py_get_raises in Hg as ->. by eauto.
    + rewrite Hi. apply py_get_raises in Hi as ->. by eauto.
  - destruct (from_dict data); [|by eauto].
    destruct (py_get data _ _) as [e|gui_state] eqn:Hg.
    { apply py_get_raises in Hg as ->. by eauto. }
    destruct (py_get gui_state "current_round_index" _) as [e|index] eqn:Hi.
    { apply py_get_raises in Hi as ->. by eauto. }
    destruct (py_get gui_state "last_recorded_results_data" _) as [e|results] eqn:Hl.
    { apply py_get_raises in Hl as ->. by eauto. }
    rewrite Hr. by eauto.
Qed.

(** C7: when loading fails (unreadable file, malformed JSON, a record
    [from_dict] rejects, or a later statement of the [try] block raising),
    the error is reported and the state is the empty one: no tournament,
    round index 0, no recorded results, no file path, not dirty. *)
Theorem load_failure_resets_state (env : load_env) (self : App) :
  (check_save_before_proceeding (unsaved_reply env) (unsaved_save env) self).1 = true ->
  open_name env ≠ "" ->
  load_failure env ->
  ∃ shown,
    load_tournament env self =
      (inr tt, mkApp None (JInt 0) (JArr []) None false
                 (shown ++ [MessageBox Critical "Load Error"])).
Proof.
  intros Hsave Hname Hfail. unfold load_tournament.
  destruct (check_save_before_proceeding _ _ self) as [proceed self1].
  cbn in Hsave. subst proceed.
  apply String.eqb_neq in Hname. rewrite Hname.
  destruct (load_failure_raises env self1 Hfail) as (e & self2 & Hraise & He).
  unfold try_except. rewrite Hraise. cbn [select_clause]. rewrite He.
  unfold load_failed, mbind, py_mbind, py_bind, act, reset_tournament_state, mark_clean.
  rewrite mark_dirty_set. cbn. by eexists.
Qed.

End LoadFacts.

Section ImportFacts.
Context `{PyInt}.

(** The loop body on a row whose rating [int] rejects. *)
Lemma import_row_unparseable_rating (ids : nat -> string)
    (players : gmap string Player.t) (added : nat) (row : csv_row)
    (name rating : string) :
  row_get "Name" row = Some name -> name ≠ "" ->
  row_get "Rating" row = Some rating -> int_of_str rating = None ->
  import_row ids (players, added) row =
    (<[ids added :=
         Player_new (ids added) name None (row_get "Gender" row)
           (row_get "Date of Birth" row) (row_get "Phone" row)
           (row_get "Email" row) (row_get "Club" row) (row_get "Federation" row)]>
       players,
     S added).
Proof.
  intros Hname Hn Hrating Hint. unfold import_row. rewrite Hname, Hrating.
  apply String.eqb_neq in Hn. rewrite Hn. unfold row_rating.
  destruct (String.eqb rating ""); by rewrite ?Hint.
Qed.

(** C4, as amended: a row whose rating [int] rejects is admitted like
    any other named row, with rating [None]; the import reports no error
    and ends with the "Import Successful" notice. *)
Theorem import_admits_unparseable_rating (env : import_env) (self : App)
    (T : Tournament.t) (before after : list csv_row) (row : csv_row)
    (name rating : string) :
  tournament self = Some T ->
  Tournament.started T = false ->
  import_name env ≠ "" ->
  import_file env = CsvRows (before ++ row :: after) false ->
  row_get "Name" row = Some name -> name ≠ "" ->
  row_get "Rating" row = Some rating -> int_of_str rating = None ->
  let ids := import_ids env in
  let '(players, added) := import_rows ids before (Tournament.players T) in
  let admitted :=
    Player_new (ids added) name None (row_get "Gender" row)
      (row_get "Date of Birth" row) (row_get "Phone" row)
      (row_get "Email" row) (row_get "Club" row) (row_get "Federation" row) in
  import_players_csv env self =
    (inr tt,
     mkApp
       (Some (Tournament.set_players
                (foldl (import_row ids) (<[ids added := admitted]> players, S added) after).1
                T))
       (current_round_index self) (last_recorded_results_data self)
       (_current_filepath self) true
       (ui self ++ [HistoryMessage; PlayerListRefreshed;
                    MessageBox Information "Import Successful"])).
Proof.
  intros HT Hstarted Hfile Hrows Hname Hn Hrating Hint ids.
  destruct (import_rows ids before (Tournament.players T)) as [players added] eqn:Hbefore.
  unfold import_players_csv. rewrite HT, Hstarted.
  apply String.eqb_neq in Hfile. rewrite Hfile.
  unfold try_except, import_players_csv_try. rewrite Hrows.
  unfold import_rows in *. fold ids. rewrite foldl_app, Hbefore. cbn [foldl].
  rewrite (import_row_unparseable_rating ids players added row name rating) by done.
  destruct (foldl _ _ after) as [players' added'].
  unfold mbind, py_mbind, py_bind, act, mret, py_mret, py_ret, emit_dirty.
  rewrite mark_dirty_set. unfold show, set_dirty, set_registry, set_tournament; cbn.
  rewrite HT. cbn. by rewrite <- !app_assoc.
Qed.

End ImportFacts.

(** ** The statements at sample inputs *)

(** A release newer than the installed version. *)
Lemma check_for_updates_true_iff_newer_witness :
  (@check_for_updates release_numbers (Response 200 (Some release_2_0_0))
     (Updater_init "1.4.2")).1 = inr true.
Proof.
  apply (@check_for_updates_true_iff_newer release_numbers).
  eexists _, "v2.0.0". split; [reflexivity|]. split; [reflexivity|].
  exists [2; 0; 0], [1; 4; 2]. repeat split.
Defined.

(** A 404 without a JSON body is a failure: [False], information reset. *)
Lemma check_for_updates_never_raises_witness :
  @check_failure release_numbers "1.0.0" (Response 404 None) ∧
  @check_for_updates release_numbers (Response 404 None) (Updater_init "1.0.0") =
    (inr false, mkUpdater "1.0.0" JNull).
Proof.
  assert (Hf : @check_failure release_numbers "1.0.0" (Response 404 None))
    by (apply error_status; lia).
  split; [exact Hf|].
  exact (proj1 (proj2 (@check_for_updates_never_raises release_numbers
                         (Updater_init "1.0.0") (Response 404 None))) Hf).
Defined.

(** C9 does not hold as stated: a release without a ["tag_name"] is not
    a failure (the tag defaults to ["0.0.0"], the check returns [False]
    and [latest_version_info] keeps the fetched object, not [None]), and
    a status outside 2xx that is not 4xx or 5xx raises nothing (with a
    newer release in the body the check returns [True]). *)
Lemma check_for_updates_counterexample :
  let untagged := Response 200 (Some (JObj [("body", JStr "Fixes.")])) in
  let redirected := Response 300 (Some release_2_0_0) in
  let self := Updater_init "1.0.0" in
  dict_lookup "tag_name" [("body", JStr "Fixes.")] = None ∧
  (@check_for_updates release_numbers untagged self).1 = inr false ∧
  latest_version_info (@check_for_updates release_numbers untagged self).2 ≠ JNull ∧
  (@check_for_updates release_numbers redirected self).1 = inr true.
Proof. repeat split. discriminate. Qed.

(** The first asset of a release as the feed serves it. *)
Lemma get_download_url_release_shaped_witness :
  get_download_url (mkUpdater "1.0.0" release_2_0_0) =
    inr (JStr "https://example.org/setup.exe").
Proof.
  exact (proj2 (proj2 (proj2 (proj2
           (get_download_url_release_shaped (mkUpdater "1.0.0" release_2_0_0) eq_refl))))
           _ _ _ eq_refl eq_refl).
Defined.

(** C10 does not hold for every state: when ["assets"] is a non-empty
    object instead of a list, subscripting it with [0] is a key error. *)
Lemma get_download_url_counterexample :
  get_download_url
    (mkUpdater "1.0.0" (JObj [("tag_name", JStr "v2.0.0");
                              ("assets", JObj [("name", JStr "setup.exe")])])) =
    inl KeyError.
Proof. reflexivity. Qed.

(** Submitting the name of a registered player. *)
Lemma add_player_detailed_rejects_witness :
  let env := mkAddEnv Ok (Some (data_named "Alice")) "p2" in
  tournament (add_player_detailed env (app_with club_open)) = Some club_open ∧
  ∃ title, add_player_detailed env (app_with club_open) =
           show (MessageBox Warning title) (app_with club_open).
Proof.
  apply (add_player_detailed_rejects _ (app_with club_open) club_open (data_named "Alice"));
    [reflexivity|reflexivity|].
  right. exists "p1", alice. split; reflexivity.
Defined.

(** Withdrawing the player of a running tournament. *)
Lemma withdraw_toggles_is_active_only_witness :
  ∃ T' player',
    tournament (on_player_context_menu (mkMenuEnv (Some "p1") (Some WithdrawAction) None false)
                  (app_with club_open_paired)) = Some T' ∧
    Tournament.players T' !! "p1" = Some player' ∧
    Player.is_active player' = false.
Proof.
  destruct (withdraw_toggles_is_active_only
              (mkMenuEnv (Some "p1") (Some WithdrawAction) None false)
              (app_with club_open_paired) club_open_paired "p1" alice
              eq_refl eq_refl eq_refl eq_refl)
    as (T' & player' & HT' & Hplayer' & Hflag & _).
  exists T', player'. split; [exact HT'|]. split; [exact Hplayer'|exact Hflag].
Defined.

(** After the first pairing, a dialog returning 7 rounds leaves 3. *)
Lemma settings_keep_num_rounds_once_paired_witness :
  ∃ T', tournament (show_settings_dialog (Some (7, ["wins"])) (app_with club_open_paired)).2
        = Some T' ∧
        Tournament.num_rounds T' = 3.
Proof.
  destruct (settings_keep_num_rounds_once_paired (Some (7, ["wins"]))
              (app_with club_open_paired) club_open_paired eq_refl)
    as (T' & HT' & Hkeep & _).
  exists T'. split; [exact HT'|]. apply Hkeep. discriminate.
Defined.

(** A new tiebreak order in a running tournament. *)
Lemma settings_tiebreaks_leave_ledger_witness :
  ∃ T', tournament (show_settings_dialog (Some (3, ["wins"])) (app_with club_open_paired)).2
        = Some T' ∧
        Tournament.tiebreak_order T' = ["wins"] ∧
        Tournament.rounds_pairings_ids T' = [[("p1", None)]] ∧
        Tournament.rounds_results T' = [[ByePoint]].
Proof.
  destruct (settings_tiebreaks_leave_ledger 3 ["wins"] (app_with club_open_paired)
              club_open_paired eq_refl)
    as (T' & shown & Heq & Horder & Hpairings & Hresults & _); [discriminate|].
  exists T'. rewrite Heq. repeat split; assumption.
Defined.

(** Loading a record that lacks most fields, over an open tournament. *)
Lemma load_failure_resets_state_witness :
  ∃ shown,
    @load_tournament record_codec (load_of (Document truncated_record)) (app_with club_open) =
      (inr tt, mkApp None (JInt 0) (JArr []) None false
                 (shown ++ [MessageBox Critical "Load Error"])).
Proof.
  apply (@load_failure_resets_state record_codec); [reflexivity|discriminate|].
  apply (@record_undecodable record_codec _ truncated_record); reflexivity.
Defined.

(** Importing a row whose rating is not a number. *)
Lemma import_admits_unparseable_rating_witness :
  @import_players_csv ascii_digits (import_of (one_row_file "Bob" "12oo")) (app_with club_open) =
    (inr tt,
     mkApp
       (Some (Tournament.set_players
                (<["p2" := Player_new "p2" "Bob" None None None None None None None]>
                   {[ "p1" := alice ]})
                club_open))
       (JInt 0) (JArr []) None true
       [HistoryMessage; PlayerListRefreshed; MessageBox Information "Import Successful"]).
Proof.
  exact (@import_admits_unparseable_rating ascii_digits
           (import_of (one_row_file "Bob" "12oo")) (app_with club_open) club_open
           [] [] [("Name", "Bob"); ("Rating", "12oo")] "Bob" "12oo"
           eq_refl eq_refl ltac:(discriminate) eq_refl eq_refl ltac:(discriminate)
           eq_refl eq_refl).
Defined.

(** C4 does not hold: a row with the rating ["12oo"], which [int]
    rejects, is imported without any warning or error, and the registry
    gains the player, with rating [None]. *)
Lemma import_unparseable_rating_counterexample :
  let self := app_with club_open in
  let result := @import_players_csv ascii_digits (import_of (one_row_file "Bob" "12oo")) self in
  ascii_int "12oo" = None ∧
  result.1 = inr tt ∧
  existsb is_error_report (ui result.2) = false ∧
  registry self !! "p2" = None ∧
  registry result.2 !! "p2" =
    Some (Player_new "p2" "Bob" None None None None None None None).
Proof. repeat split; vm_compute; reflexivity. Qed.

(** C2 fails on the import path: from a registry with unique names,
    importing a row that carries the name of a registered player ends
    without any report and with two entries of that name, while
    [add_player_detailed] refuses the same name. *)
Theorem import_players_csv_duplicates_name :
  let self := app_with club_open in
  let result := @import_players_csv ascii_digits (import_of (one_row_file "Alice" "1480")) self in
  names_unique (registry self) ∧
  result.1 = inr tt ∧
  existsb is_error_report (ui result.2) = false ∧
  registry result.2 !! "p1" = Some alice ∧
  registry result.2 !! "p2" =
    Some (Player_new "p2" "Alice" (Some 1480) None None None None None None) ∧
  ¬ names_unique (registry result.2) ∧
  ui (add_player_detailed (mkAddEnv Ok (Some (data_named "Alice")) "p2") self) =
    [MessageBox Warning "Duplicate Player"].
Proof.
  cbn zeta.
  assert (H1 : registry (@import_players_csv ascii_digits
                  (import_of (one_row_file "Alice" "1480")) (app_with club_open)).2 !! "p1"
               = Some alice) by (vm_compute; reflexivity).
  assert (H2 : registry (@import_players_csv ascii_digits
                  (import_of (one_row_file "Alice" "1480")) (app_with club_open)).2 !! "p2"
               = Some (Player_new "p2" "Alice" (Some 1480) None None None None None None))
    by (vm_compute; reflexivity).
  split; [|split; [|split; [|split; [|split; [|split]]]]];
    try exact H1; try exact H2; try (vm_compute; reflexivity).
  - intros i j p q Hi Hj _. change (registry (app_with club_open)) with ({[ "p1" := alice ]} : gmap string Player.t) in *.
    apply lookup_singleton_Some in Hi as [<- _].
    by apply lookup_singleton_Some in Hj as [<- _].
  - intros Huniq. by specialize (Huniq "p1" "p2" _ _ H1 H2 eq_refl).
Qed.

(** ** Further properties of the update checker *)

Section UpdaterMore.
Context `{Packaging}.

(** What a check leaves behind: the result and the release information,
    read off the response. *)
Lemma check_for_updates_outcome (self : Updater) (fd : feed) :
  (∃ release tag,
     fetched_release fd = Some release ∧ release_tag release = Some tag ∧
     ∃ latest installed,
       parse_version (lstrip ["v"%char] tag) = Some latest ∧
       parse_version (current_version self) = Some installed ∧
       check_for_updates fd self =
         (inr (version_gt latest installed),
          mkUpdater (current_version self) (JObj release))) ∨
  check_for_updates fd self = (inr false, mkUpdater (current_version self) JNull).
Proof.
  unfold check_for_updates. rewrite check_handled.
  destruct fd as [|status_code body]; [by right|].
  rewrite check_for_updates_try_response. unfold fetched_release.
  destruct ((400 <=? status_code) && (status_code <? 600)); [by right|].
  destruct body as [info|]; [|by right].
  destruct info as [ | | | | | |release]; try by right.
  cbn. unfold release_tag.
  destruct (dict_lookup "tag_name" release) as [v|] eqn:Htag; cbn.
  - destruct v as [ | | | |tag| | ]; try by right.
    cbn. destruct (parse_version (lstrip _ tag)) as [latest|] eqn:Hl; [|by right].
    destruct (parse_version (current_version self)) as [installed|] eqn:Hc; [|by right].
    left. exists release, tag. rewrite Htag. do 2 (split; [done|]). by exists latest, installed.
  - destruct (parse_version "0.0.0") as [latest|] eqn:Hl; [|by right].
    destruct (parse_version (current_version self)) as [installed|] eqn:Hc; [|by right].
    left. exists release, "0.0.0". rewrite Htag. do 2 (split; [done|]). by exists latest, installed.
Qed.

(** X1: a check does not depend on the release information left by an
    earlier check: result and new information are determined by the
    feed and the current version alone. *)
Theorem check_for_updates_forgets_previous_release (current : string)
    (previous other : json) (fd : feed) :
  check_for_updates fd (mkUpdater current previous) =
  check_for_updates fd (mkUpdater current other).
Proof.
  unfold check_for_updates. rewrite !check_handled.
  destruct fd as [|status_code body]; [reflexivity|].
  rewrite !check_for_updates_try_response. cbn [current_version].
  destruct ((400 <=? status_code) && (status_code <? 600)); [reflexivity|].
  destruct body as [info|]; [|reflexivity].
  cbn zeta. destruct (py_get info _ _) as [e|tag_name] eqn:Hg.
  { by apply py_get_raises in Hg as ->. }
  destruct (py_lstrip tag_name _) as [e|s] eqn:Hs.
  { by destruct tag_name; try discriminate; injection Hs as <-. }
  destruct (parse_version s); [|reflexivity].
  by destruct (parse_version current).
Qed.

(** [get_latest_version] on a non-empty object. *)
Lemma get_latest_version_object (current : string) (release : list (string * json)) :
  release ≠ [] ->
  get_latest_version (mkUpdater current (JObj release)) =
  match dict_lookup "tag_name" release with
  | Some (JStr tag) => inr (JStr (lstrip ["v"%char] tag))
  | None => inr (JStr "N/A")
  | Some _ => inl AttributeError
  end.
Proof.
  intros Hne. unfold get_latest_version. cbn [latest_version_info truthy].
  destruct release as [|field release']; [done|].
  set (release := field :: release'). cbn [py_get default].
  by destruct (dict_lookup "tag_name" release) as [[]|].
Qed.

(** X2: after any check, whatever the feed delivered, the version
    string is untouched and [get_latest_version] and [get_release_notes]
    raise nothing. *)
Theorem getters_total_after_check (self : Updater) (fd : feed) :
  let checked := (check_for_updates fd self).2 in
  current_version checked = current_version self ∧
  (∃ shown, get_latest_version checked = inr shown) ∧
  (∃ notes, get_release_notes checked = inr notes).
Proof.
  destruct (check_for_updates_outcome self fd)
    as [(release & tag & Hr & Ht & latest & installed & Hl & Hc & ->)| ->];
    cbn; [|by eauto].
  split; [done|]. split; [|unfold get_release_notes; cbn; by destruct release; eauto].
  destruct release as [|field release']; [by eauto|].
  rewrite get_latest_version_object by done. unfold release_tag in Ht.
  destruct (dict_lookup "tag_name" _) as [[]|]; try discriminate; by eauto.
Qed.

(** X3: when a check reports an update, [latest_version_info] is the
    fetched release, and [get_latest_version] returns the tag that was
    compared, without its leading [v]s. *)
Theorem reported_update_shows_compared_tag (self : Updater) (fd : feed) :
  (check_for_updates fd self).1 = inr true ->
  ∃ release,
    fetched_release fd = Some release ∧
    (check_for_updates fd self).2 = mkUpdater (current_version self) (JObj release) ∧
    ∀ tag, dict_lookup "tag_name" release = Some (JStr tag) ->
           get_latest_version (check_for_updates fd self).2 =
           inr (JStr (lstrip ["v"%char] tag)).
Proof.
  destruct (check_for_updates_outcome self fd)
    as [(release & tag & Hr & Ht & latest & installed & Hl & Hc & ->)| ->];
    [|discriminate].
  cbn. intros _. exists release. do 2 (split; [done|]).
  intros tag' Htag. rewrite get_latest_version_object, Htag; [done|].
  by destruct release.
Qed.
End UpdaterMore.

(** X4: [prompt_update] hands a URL to the browser only when the user
    chose Download, and then it is the non-empty value
    [get_download_url] returns, shown after the "Update Available" box,
    with a non-empty version and release notes. *)
Theorem prompt_update_opens_first_asset (updater : option Updater)
    (download_clicked : bool) (self self' : App) (url : json) :
  prompt_update updater download_clicked self = inr (Some url, self') ->
  download_clicked = true ∧
  truthy url = true ∧
  self' = show (MessageBox Information "Update Available") self ∧
  ∃ u, updater = Some u ∧ get_download_url u = inr url ∧
       ∃ shown notes, get_latest_version u = inr shown ∧ truthy shown = true ∧
                      get_release_notes u = inr notes ∧ truthy notes = true.
Proof.
  unfold prompt_update. destruct updater as [u|]; [|discriminate].
  destruct (negb (truthy (latest_version_info u))); [discriminate|].
  destruct (get_latest_version u) as [e|shown] eqn:Hv; [discriminate|].
  destruct (get_release_notes u) as [e|notes] eqn:Hn; [discriminate|].
  destruct (get_download_url u) as [e|download_url] eqn:Hd; [discriminate|].
  destruct (truthy shown) eqn:Hshown, (truthy notes) eqn:Hnotes,
    (truthy download_url) eqn:Hurl; cbn; try discriminate.
  destruct download_clicked; [|discriminate].
  intros [= <- <-]. do 3 (split; [done|]). exists u. do 2 (split; [done|]).
  by exists shown, notes.
Qed.

Section UpdateCheckFacts.
Context `{Packaging}.

(** X5: a failed update check is not reported as a failure: the manual
    check ends with the same "Update Check" information box as when no
    newer version exists, and the automatic check shows nothing; the
    release information is reset. *)
Theorem failed_check_reads_as_up_to_date (u : Updater) (fd : feed)
    (download_clicked : bool) (self : App) :
  check_failure (current_version u) fd ->
  check_for_updates_manual (Some u) fd download_clicked self =
    inr (None, Some (mkUpdater (current_version u) JNull),
         show (MessageBox Information "Update Check")
           (show StatusMessage (show StatusMessage self))) ∧
  check_for_updates_auto (Some u) fd download_clicked self =
    inr (None, Some (mkUpdater (current_version u) JNull), self).
Proof.
  intros Hf. apply (check_failure_raises u) in Hf as (e & st & Heq & He & Hcur).
  unfold check_for_updates_manual, check_for_updates_auto, check_for_updates.
  rewrite check_handled, Heq, He, Hcur. done.
Qed.

End UpdateCheckFacts.

(** ** Further properties of the main window *)

(** X6: of Start, Prepare Next Round and Record Results at most one is
    enabled; Undo needs a recorded round and undo data; once all rounds
    are recorded neither Prepare nor Record is enabled. *)
Theorem at_most_one_round_action (T : option Tournament.t) (results_recorded : Z)
    (undo_data : bool) :
  let a := enabled_actions T results_recorded undo_data in
  start_action a && prepare_round_action a = false ∧
  start_action a && record_results_action a = false ∧
  prepare_round_action a && record_results_action a = false ∧
  (undo_results_action a = true -> 0 < results_recorded ∧ undo_data = true) ∧
  (∀ T', T = Some T' ->
     0 < Tournament.num_rounds T' <= results_recorded ->
     prepare_round_action a = false ∧ record_results_action a = false).
Proof.
  destruct T as [T|]; cbn; [|by repeat split].
  set (generated := Z.of_nat (length (Tournament.rounds_pairings_ids T))).
  destruct (Z.ltb_spec 0 generated), (Z.eqb_spec generated results_recorded),
    (Z.ltb_spec results_recorded generated),
    (Z.leb_spec (Tournament.num_rounds T) results_recorded),
    (Z.ltb_spec 0 (Tournament.num_rounds T)),
    (Z.ltb_spec 0 results_recorded), undo_data; cbn;
    repeat (first [split | intro]); simplify_eq; try done; lia.
Qed.

(** X7: with a tournament open, the status line names the enabled
    step: it asks to add players and start exactly when Start is
    enabled, for results exactly when Record is, and to prepare the next
    round exactly when Prepare is. *)
Theorem status_names_the_enabled_step (T : Tournament.t) (results_recorded : Z)
    (undo_data : bool) :
  let a := enabled_actions (Some T) results_recorded undo_data in
  (start_action a = true ↔
   status a = AddPlayersThenStart (size (Tournament.players T))) ∧
  (record_results_action a = true ↔ status a = EnterResults (results_recorded + 1)) ∧
  (prepare_round_action a = true ↔ status a = PrepareRound (results_recorded + 1)).
Proof.
  cbn.
  set (generated := Z.of_nat (length (Tournament.rounds_pairings_ids T))).
  destruct (Z.ltb_spec 0 generated), (Z.eqb_spec generated results_recorded),
    (Z.ltb_spec results_recorded generated),
    (Z.leb_spec (Tournament.num_rounds T) results_recorded),
    (Z.ltb_spec 0 (Tournament.num_rounds T)),
    (Z.eqb_spec results_recorded (Tournament.num_rounds T)); cbn;
    repeat split; try done; try lia.
Qed.

(** X8: when the "Add New Player" button is disabled (no tournament, or
    a round has been paired), [add_player_detailed] leaves the
    tournament as it is. *)
Theorem add_player_detailed_only_when_enabled (env : add_env) (self : App) :
  add_button_enabled self = false ->
  tournament (add_player_detailed env self) = tournament self.
Proof.
  unfold add_button_enabled, add_player_detailed.
  destruct (tournament self) as [T|] eqn:HT.
  - destruct (Tournament.started T); [|discriminate]. intros _. by cbn.
  - intros _. by destruct (notice_reply env).
Qed.

Section ImportGuard.
Context `{PyInt}.

(** X9: the import action is enabled exactly when [import_players_csv]
    gets as far as the file dialog: disabled, the call only shows a
    warning; enabled, a cancelled dialog changes nothing. *)
Theorem import_action_matches_guard (env : import_env) (self : App)
    (results_recorded : Z) (undo_data : bool) :
  let enabled :=
    import_players_action (enabled_actions (tournament self) results_recorded undo_data) in
  (enabled = false ->
   ∃ title, import_players_csv env self = (inr tt, show (MessageBox Warning title) self)) ∧
  (enabled = true -> import_name env = "" -> import_players_csv env self = (inr tt, self)).
Proof.
  unfold import_players_csv, enabled_actions.
  destruct (tournament self) as [T|]; cbn; [|split; [by eauto|discriminate]].
  unfold Tournament.started.
  destruct (0 <? Z.of_nat (length (Tournament.rounds_pairings_ids T))); cbn.
  - split; [by eauto|discriminate].
  - split; [discriminate|]. by intros _ ->.
Qed.

End ImportGuard.

(** X10: a save that returns [True] wrote the file, leaves the state
    clean with a file path set, and does not touch the tournament or the
    round counters. *)
Theorem save_tournament_success (save_as : bool) (env : save_env) (self : App) :
  (save_tournament save_as env self).1 = true ->
  let saved := (save_tournament save_as env self).2 in
  _dirty saved = false ∧
  path_set (_current_filepath saved) = true ∧
  write_fails env = false ∧
  tournament saved = tournament self ∧
  is_Some (tournament self) ∧
  current_round_index saved = current_round_index self ∧
  last_recorded_results_data saved = last_recorded_results_data self.
Proof.
  unfold save_tournament. destruct (tournament self) as [T|] eqn:HT; [|discriminate].
  destruct (path_set (_current_filepath self)) eqn:Hpath, save_as,
    (String.eqb_spec (save_name env) ""), (write_fails env); cbn;
    try discriminate; intros _; unfold mark_clean; rewrite ?mark_dirty_set; cbn;
    rewrite ?HT, ?Hpath; repeat split; try done; try (by eauto).
  all: by apply negb_true_iff, String.eqb_neq.
Qed.

(** X11: a save that returns [False] leaves the tournament and the
    dirty flag alone; the file path changes only when a name was picked
    and the write then failed, and it is then the picked name. *)
Theorem save_tournament_failure (save_as : bool) (env : save_env) (self : App) :
  (save_tournament save_as env self).1 = false ->
  let kept := (save_tournament save_as env self).2 in
  tournament kept = tournament self ∧
  _dirty kept = _dirty self ∧
  (_current_filepath kept ≠ _current_filepath self ->
   write_fails env = true ∧ save_name env ≠ "" ∧
   _current_filepath kept = Some (save_name env) ∧
   (save_as = true ∨ path_set (_current_filepath self) = false)).
Proof.
  unfold save_tournament. destruct (tournament self) as [T|] eqn:HT; [|by cbn].
  destruct (path_set (_current_filepath self)) eqn:Hpath, save_as,
    (String.eqb_spec (save_name env) ""), (write_fails env); cbn;
    try discriminate; intros _; rewrite ?HT; repeat split; try done; by eauto.
Qed.

(** X12: [check_save_before_proceeding] never touches the tournament;
    it lets the caller proceed only with a clean state or after Discard;
    Cancel on unsaved changes stops the caller; without unsaved changes
    nothing is asked. *)
Theorem proceeding_means_saved_or_discarded (reply : save_reply) (env : save_env)
    (self : App) :
  let '(proceed, self') := check_save_before_proceeding reply env self in
  tournament self' = tournament self ∧
  (proceed = true -> _dirty self' = false ∨ reply = Discard) ∧
  (_dirty self = true -> reply = Cancel -> proceed = false ∧ _dirty self' = true) ∧
  (_dirty self = false -> proceed = true ∧ self' = self).
Proof.
  unfold check_save_before_proceeding.
  destruct (_dirty self) eqn:Hdirty; cbn [negb]; [|by repeat split; eauto].
  destruct reply; [|by repeat split; eauto|by repeat split].
  unfold save_tournament. cbn [tournament show].
  destruct (tournament self) as [T|] eqn:HT; [|by repeat split].
  destruct (negb _ || false), (String.eqb (save_name env) ""), (write_fails env);
    unfold mark_clean; rewrite ?mark_dirty_set; cbn; rewrite ?HT;
    repeat split; try done; by eauto.
Qed.

Section LoadMore.
Context `{TournamentCodec}.




(** The unsaved-changes question leaves tournament and round index
    alone, whatever the answer. *)
Lemma check_save_keeps_tournament (reply : save_reply) (env : save_env) (self : App) :
  tournament (check_save_before_proceeding reply env self).2 = tournament self ∧
  current_round_index (check_save_before_proceeding reply env self).2 =
    current_round_index self.
Proof.
  unfold check_save_before_proceeding, save_tournament.
  destruct (negb (_dirty self)); [done|].
  destruct reply; [|done..]. cbn [tournament show].
  destruct (tournament self) as [T|] eqn:HT; [|by cbn].
  destruct (negb _ || false), (String.eqb (save_name env) ""), (write_fails env);
    unfold mark_clean; rewrite ?mark_dirty_set; cbn; by rewrite ?HT.
Qed.

(** X15: when the file dialog is cancelled, or the unsaved-changes
    question stops the load, the tournament and the round index are the
    ones before the call. *)
Theorem load_tournament_without_file (env : load_env) (self : App) :
  open_name env = "" ∨
    (check_save_before_proceeding (unsaved_reply env) (unsaved_save env) self).1 = false ->
  tournament (load_tournament env self).2 = tournament self ∧
  current_round_index (load_tournament env self).2 = current_round_index self ∧
  (load_tournament env self).1 = inr tt.
Proof.
  intros Hno. unfold load_tournament.
  destruct (check_save_keeps_tournament (unsaved_reply env) (unsaved_save env) self)
    as [HT Hindex].
  destruct (check_save_before_proceeding _ _ self) as [proceed self1].
  cbn in Hno, HT, Hindex. destruct proceed; [|done].
  by destruct Hno as [->|[=]].
Qed.

End LoadMore.

(** [reset_tournament_state] leaves the empty state, whatever it starts from. *)
Lemma reset_tournament_state_empty (self : App) :
  reset_tournament_state self =
  mkApp None (JInt 0) (JArr []) None false (ui self ++ [ViewsCleared]).
Proof.
  unfold reset_tournament_state, mark_clean. rewrite mark_dirty_set.
  by destruct self.
Qed.

(** What accepting the settings dialog leaves before the first
    pairing. *)
Lemma show_settings_dialog_before_start (new_rounds : Z) (new_tiebreaks : list string)
    (self : App) (T : Tournament.t) :
  tournament self = Some T ->
  Tournament.rounds_pairings_ids T = [] ->
  ∃ dirty shown,
    show_settings_dialog (Some (new_rounds, new_tiebreaks)) self =
      (true,
       mkApp (Some (Tournament.mk (Tournament.name T) (Tournament.players T)
                      new_rounds new_tiebreaks [] (Tournament.rounds_results T)))
         (current_round_index self) (last_recorded_results_data self)
         (_current_filepath self) dirty shown) ∧
    (dirty = _dirty self ∨ dirty = true) ∧
    (Tournament.num_rounds T = new_rounds ->
     Tournament.tiebreak_order T = new_tiebreaks ->
     dirty = _dirty self ∧ shown = ui self).
Proof.
  intros HT Hrounds. unfold show_settings_dialog, Tournament.started.
  rewrite HT, Hrounds. cbn [length Z.of_nat Z.ltb Z.compare negb]. rewrite andb_true_r.
  destruct T as [name players num_rounds tiebreak_order pairings results].
  cbn in Hrounds. subst pairings. destruct self as [T' index recorded path dirty trace].
  cbn in HT.
  subst. cbn [Tournament.num_rounds Tournament.tiebreak_order Tournament.name
              Tournament.players Tournament.rounds_results current_round_index
              last_recorded_results_data _current_filepath _dirty ui].
  destruct (bool_decide (num_rounds ≠ new_rounds)) eqn:Hr;
    cbn [Tournament.set_num_rounds Tournament.tiebreak_order Tournament.name
         Tournament.players Tournament.rounds_results Tournament.num_rounds
         Tournament.rounds_pairings_ids];
    (destruct (bool_decide (tiebreak_order ≠ new_tiebreaks)) eqn:Ht);
    rewrite ?mark_dirty_set; cbv -[app];
    try (apply bool_decide_eq_false, dec_stable in Hr as ->);
    try (apply bool_decide_eq_false, dec_stable in Ht as ->);
    try (apply bool_decide_eq_true in Hr); try (apply bool_decide_eq_true in Ht);
    eexists _, _; (split; [reflexivity|]); split; eauto; try done.
Qed.


(** X17: a new tournament has an empty registry, no round, and the
    rounds and tiebreak order of the accepted settings dialog, and is
    marked dirty; rejecting the dialog leaves the empty state. *)
Theorem new_tournament_takes_dialog_settings (default_name : string)
    (DEFAULT_TIEBREAK_SORT_ORDER : list string) (reply : save_reply) (env : save_env)
    (self self1 : App) (new_rounds : Z) (new_tiebreaks : list string) :
  check_save_before_proceeding reply env self = (true, self1) ->
  (∃ shown,
     prompt_new_tournament default_name DEFAULT_TIEBREAK_SORT_ORDER reply env
       (Some (new_rounds, new_tiebreaks)) self =
     mkApp (Some (Tournament.mk default_name ∅ new_rounds new_tiebreaks [] []))
       (JInt 0) (JArr []) None true shown) ∧
  prompt_new_tournament default_name DEFAULT_TIEBREAK_SORT_ORDER reply env None self =
    mkApp None (JInt 0) (JArr []) None false (ui self1 ++ [ViewsCleared; ViewsCleared]).
Proof.
  intros Hsave. unfold prompt_new_tournament. rewrite Hsave.
  rewrite reset_tournament_state_empty. split.
  - destruct (show_settings_dialog_before_start new_rounds new_tiebreaks
                (set_tournament
                   (Some (Tournament_new default_name [] 3 DEFAULT_TIEBREAK_SORT_ORDER))
                   (mkApp None (JInt 0) (JArr []) None false (ui self1 ++ [ViewsCleared])))
                (Tournament_new default_name [] 3 DEFAULT_TIEBREAK_SORT_ORDER)
                eq_refl eq_refl) as (dirty & shown & -> & _).
    rewrite mark_dirty_set. by eexists.
  - unfold show_settings_dialog. cbn [tournament set_tournament].
    rewrite reset_tournament_state_empty. cbn [ui set_tournament].
    by rewrite <- (app_assoc (ui self1)).
Qed.

(** ** Further properties of the players tab *)

(** X18: before the first pairing, submitting a non-empty name that no
    player carries stores an active player with the submitted data
    under the new id, leaves the other entries alone and marks the state
    dirty. *)
Theorem add_player_detailed_stores_player (env : add_env) (self : App)
    (T : Tournament.t) (data : player_data) :
  tournament self = Some T ->
  Tournament.rounds_pairings_ids T = [] ->
  add_dialog env = Some data ->
  data_name data ≠ "" ->
  (∀ i p, Tournament.players T !! i = Some p -> Player.name p ≠ data_name data) ->
  let new_player :=
    Player.mk (add_id env) (data_name data) (data_rating data) (data_gender data)
      (data_dob data) (data_phone data) (data_email data) (data_club data)
      (data_federation data) true in
  add_player_detailed env self =
    mkApp (Some (Tournament.set_players (<[add_id env := new_player]> (Tournament.players T)) T))
      (current_round_index self) (last_recorded_results_data self)
      (_current_filepath self) true
      (ui self ++ [PlayerListItemAdded (add_id env); StatusMessage; HistoryMessage]) ∧
  registry (add_player_detailed env self) !! add_id env = Some new_player ∧
  ∀ other, other ≠ add_id env ->
    registry (add_player_detailed env self) !! other = Tournament.players T !! other.
Proof.
  intros HT Hrounds Hdata Hname Hfree new_player.
  assert (Heq : add_player_detailed env self =
    mkApp (Some (Tournament.set_players (<[add_id env := new_player]> (Tournament.players T)) T))
      (current_round_index self) (last_recorded_results_data self)
      (_current_filepath self) true
      (ui self ++ [PlayerListItemAdded (add_id env); StatusMessage; HistoryMessage])).
  { unfold add_player_detailed, Tournament.started. rewrite HT, Hrounds, Hdata. cbn.
    apply String.eqb_neq in Hname. rewrite Hname.
    destruct (name_taken _ _) eqn:Htaken.
    { apply name_taken_true in Htaken as (i & p & Hp & Hn). by destruct (Hfree i p). }
    unfold emit_dirty. rewrite mark_dirty_set.
    destruct self as [T' index recorded path dirty trace]. cbn in HT. subst T'.
    cbv -[app insert Tournament.players]. by do 2 rewrite <- (app_assoc trace). }
  rewrite Heq. split; [done|]. unfold registry. cbn. split.
  - by rewrite lookup_insert_eq.
  - intros other Hother. by rewrite lookup_insert_ne.
Qed.

(** Replacing an entry keeps names unique when the new name is the old
    one or is free. *)
Lemma names_unique_replace (players : gmap string Player.t) (i : string)
    (p p' : Player.t) :
  names_unique players ->
  players !! i = Some p ->
  Player.name p' = Player.name p ∨ name_taken (Player.name p') players = false ->
  names_unique (<[i := p']> players).
Proof.
  intros Huniq Hp Hname j k q r Hj Hk Hqr.
  assert (Hother : ∀ l x, l ≠ i -> players !! l = Some x ->
                          Player.name x ≠ Player.name p').
  { intros l x Hl Hx Heq. destruct Hname as [Hsame|Hfree].
    - apply Hl. eapply Huniq; [done..|congruence].
    - apply not_true_iff_false in Hfree. apply Hfree, name_taken_true. by eauto. }
  destruct (decide (i = j)) as [<-|Hij], (decide (i = k)) as [<-|Hik]; [done|..].
  - rewrite lookup_insert_eq in Hj. rewrite lookup_insert_ne in Hk by done.
    injection Hj as <-. by destruct (Hother k r).
  - rewrite lookup_insert_eq in Hk. rewrite lookup_insert_ne in Hj by done.
    injection Hk as <-. by destruct (Hother j q).
  - rewrite lookup_insert_ne in Hj, Hk by done. by eapply Huniq.
Qed.

(** Deleting an entry keeps names unique. *)
Lemma names_unique_delete (players : gmap string Player.t) (i : string) :
  names_unique players -> names_unique (delete i players).
Proof.
  intros Huniq j k q r Hj Hk. apply lookup_delete_Some in Hj as [_ Hj].
  apply lookup_delete_Some in Hk as [_ Hk]. by eapply Huniq.
Qed.

(** The tournament a context-menu action leaves: the one before, with a
    registry that depends on the branch taken. *)
Lemma on_player_context_menu_registry (env : menu_env) (self : App) (T : Tournament.t) :
  tournament self = Some T ->
  ∃ players',
    tournament (on_player_context_menu env self) = Some (Tournament.set_players players' T) ∧
    (players' = Tournament.players T ∨
     ∃ player_id player,
       item env = Some player_id ∧
       Tournament.players T !! player_id = Some player ∧
       ((Tournament.started T = false ∧
         ∃ data, edit_dialog env = Some data ∧ data_name data ≠ "" ∧
                 (data_name data = Player.name player ∨
                  name_taken (data_name data) (Tournament.players T) = false) ∧
                 players' = <[player_id := edited data player]> (Tournament.players T)) ∨
        players' = <[player_id := Player.set_is_active (negb (Player.is_active player)) player]>
                     (Tournament.players T) ∨
        (Tournament.started T = false ∧
         players' = delete (Player.id player) (Tournament.players T)))).
Proof.
  intros HT. unfold on_player_context_menu. rewrite HT.
  assert (Hsame : ∀ ev, tournament (show ev self) = Some (Tournament.set_players (Tournament.players T) T)).
  { intros ev. cbn. rewrite HT. by destruct T. }
  assert (Hself : tournament self = Some (Tournament.set_players (Tournament.players T) T)).
  { rewrite HT. by destruct T. }
  destruct (item env) as [player_id|]; [|by eauto].
  destruct (Tournament.players T !! player_id) as [player|] eqn:Hplayer; [|by eauto].
  unfold menu_exec.
  destruct (triggered env) as [[]|]; [| | |by eauto].
  - destruct (Tournament.started T) eqn:Hstarted; [by eauto|].
    destruct (edit_dialog env) as [data|] eqn:Hdata; [|by eauto].
    destruct (String.eqb_spec (data_name data) "") as [|Hne]; [by eauto|].
    destruct (String.eqb_spec (data_name data) (Player.name player)) as [Hsame'|Hdiff]; cbn [negb andb].
    + unfold emit_dirty. rewrite mark_dirty_set. cbn. rewrite HT. cbn.
      eexists. split; [done|]. right. exists player_id, player. do 2 (split; [done|]).
      left. split; [done|]. exists data. by eauto 10.
    + destruct (name_taken _ _) eqn:Htaken; [by eauto|].
      unfold emit_dirty. rewrite mark_dirty_set. cbn. rewrite HT. cbn.
      eexists. split; [done|]. right. exists player_id, player. do 2 (split; [done|]).
      left. split; [done|]. exists data. by eauto 10.
  - unfold emit_dirty. rewrite mark_dirty_set. cbn. rewrite HT. cbn.
    eexists. split; [done|]. right. exists player_id, player. by eauto 10.
  - destruct (Tournament.started T) eqn:Hstarted; [by eauto|].
    destruct (remove_confirmed env); [|by eauto].
    case_bool_decide as Hin; cbn; rewrite HT; cbn.
    + eexists. split; [done|]. right. exists player_id, player. by eauto 10.
    + exists (Tournament.players T). split; [by destruct T|by left].
Qed.

(** X20: whatever the user does in the context menu (edit, withdraw,
    remove, nothing), names stay unique. *)
Theorem on_player_context_menu_keeps_names_unique (env : menu_env) (self : App)
    (T : Tournament.t) :
  tournament self = Some T ->
  names_unique (Tournament.players T) ->
  ∃ T', tournament (on_player_context_menu env self) = Some T' ∧
        names_unique (Tournament.players T').
Proof.
  intros HT Huniq.
  destruct (on_player_context_menu_registry env self T HT) as (players' & -> & Hcases).
  eexists. split; [done|]. cbn.
  destruct Hcases as [->|(player_id & player & _ & Hplayer & [Hedit|[->|[_ ->]]])]; [done|..].
  - destruct Hedit as (_ & data & _ & _ & Hname & ->).
    by apply names_unique_replace with player.
  - apply names_unique_replace with player; by eauto.
  - by apply names_unique_delete.
Qed.

(** X21: once a round has been paired, the context menu changes
    nothing but [is_active] flags: every entry stays, with every other
    attribute, and so does the rest of the tournament. *)
Theorem started_menu_only_toggles (env : menu_env) (self : App) (T : Tournament.t) :
  tournament self = Some T ->
  Tournament.rounds_pairings_ids T ≠ [] ->
  ∃ T', tournament (on_player_context_menu env self) = Some T' ∧
        Tournament.set_players (Tournament.players T) T' = T ∧
        ∀ i, apart_from_is_active <$> Tournament.players T' !! i =
             apart_from_is_active <$> Tournament.players T !! i.
Proof.
  intros HT Hrounds.
  assert (Hstarted : Tournament.started T = true).
  { unfold Tournament.started. by destruct (Tournament.rounds_pairings_ids T). }
  destruct (on_player_context_menu_registry env self T HT) as (players' & -> & Hcases).
  eexists. split; [done|]. split; [by destruct T|]. cbn. intros i.
  destruct Hcases as [->|(player_id & player & _ & Hplayer & [Hedit|[->|[Hno _]]])]; [done|..].
  - destruct Hedit as (Hno & _). congruence.
  - destruct (decide (player_id = i)) as [<-|Hne].
    + rewrite lookup_insert_eq, Hplayer. by destruct player.
    + by rewrite lookup_insert_ne.
  - congruence.
Qed.

(** X22: editing a player to an empty name, or to the name of another
    player, is refused: the only effect is the "Edit Error" warning. *)
Theorem edit_rejects_taken_name (env : menu_env) (self : App) (T : Tournament.t)
    (player_id : string) (player : Player.t) (data : player_data) :
  tournament self = Some T ->
  item env = Some player_id ->
  Tournament.players T !! player_id = Some player ->
  triggered env = Some EditAction ->
  edit_dialog env = Some data ->
  Tournament.rounds_pairings_ids T = [] ->
  (data_name data = "" ∨
   (data_name data ≠ Player.name player ∧
    ∃ i p, Tournament.players T !! i = Some p ∧ Player.name p = data_name data)) ->
  on_player_context_menu env self = show (MessageBox Warning "Edit Error") self.
Proof.
  intros HT Hitem Hplayer Haction Hdata Hrounds Hbad.
  unfold on_player_context_menu, Tournament.started.
  rewrite Hitem, HT, Hplayer, Haction, Hrounds, Hdata. cbn [length Z.of_nat Z.ltb Z.compare menu_exec].
  destruct (String.eqb_spec (data_name data) "") as [|Hne]; [done|].
  destruct Hbad as [|[Hdiff Htaken]]; [done|].
  apply String.eqb_neq in Hdiff. apply name_taken_true in Htaken.
  by rewrite Hdiff, Htaken.
Qed.


(** X24: withdrawing and reactivating the same player gives back the
    tournament as it was. *)
Theorem withdraw_twice_restores (env : menu_env) (self : App) :
  triggered env = Some WithdrawAction ->
  tournament (on_player_context_menu env (on_player_context_menu env self)) =
  tournament self.
Proof.
  intros Haction. unfold on_player_context_menu at 2.
  destruct (item env) as [player_id|] eqn:Hitem;
    [|unfold on_player_context_menu; by rewrite Hitem].
  destruct (tournament self) as [T|] eqn:HT;
    [|unfold on_player_context_menu; by rewrite Hitem, HT].
  destruct (Tournament.players T !! player_id) as [player|] eqn:Hplayer;
    [|unfold on_player_context_menu; by rewrite Hitem, HT, Hplayer].
  rewrite Haction. cbn [menu_exec]. unfold emit_dirty. rewrite mark_dirty_set.
  unfold on_player_context_menu. rewrite Hitem. cbn. rewrite HT. cbn.
  rewrite lookup_insert_eq, Haction. cbn [menu_exec].
  unfold emit_dirty. rewrite mark_dirty_set. cbn. rewrite HT, negb_involutive.
  destruct T as [name players num_rounds order pairings results]. cbn in *.
  unfold Tournament.set_players. cbn. do 2 f_equal.
  rewrite insert_insert_eq. apply insert_id. by destruct player.
Qed.

Section ImportMore.
Context `{PyInt}.

(** The loop body: a row without a name is skipped, a named row is
    stored under the next id. *)
Lemma import_row_cases (ids : nat -> string) (players : gmap string Player.t)
    (added : nat) (row : csv_row) :
  import_row ids (players, added) row =
  if named row then (<[ids added := player_of_row (ids added) row]> players, S added)
  else (players, added).
Proof.
  unfold import_row, named, player_of_row.
  destruct (row_get "Name" row) as [name|]; [|done].
  by destruct (String.eqb name "").
Qed.

(** The loop from any counter: how many players it creates, which
    entries it leaves alone, and where each named row ends up. *)
Lemma import_loop (ids : nat -> string) (rows : list csv_row) :
  ∀ (players : gmap string Player.t) (added : nat),
    let result := foldl (import_row ids) (players, added) rows in
    let created := length (filter (λ row, named row = true) rows) in
    result.2 = (added + created)%nat ∧
    (∀ i, (∀ k, (added ≤ k < added + created)%nat -> ids k ≠ i) ->
          result.1 !! i = players !! i) ∧
    (NoDup (ids <$> seq added created) ->
     ∀ k row, filter (λ row, named row = true) rows !! k = Some row ->
              result.1 !! ids (added + k)%nat =
              Some (player_of_row (ids (added + k)%nat) row)).
Proof.
  induction rows as [|row rows IH]; intros players added; cbn zeta.
  { cbn. split; [lia|]. split; [done|]. intros _ k row. by rewrite lookup_nil. }
  cbn [foldl]. rewrite import_row_cases, filter_cons.
  destruct (named row) eqn:Hnamed.
  - rewrite decide_True by done. cbn [length].
    destruct (IH (<[ids added := player_of_row (ids added) row]> players) (S added))
      as (Hcount & Hframe & Hlookup).
    set (created := length (filter (λ row, named row = true) rows)) in *.
    split; [lia|]. split.
    + intros i Hi. rewrite Hframe by (intros k Hk; apply Hi; lia).
      apply lookup_insert_ne, Hi. lia.
    + cbn [seq fmap list_fmap]. intros Hnodup k row' Hk.
      apply NoDup_cons in Hnodup as [Hfresh Hnodup].
      destruct k as [|k]; cbn in Hk.
      * injection Hk as <-. rewrite Nat.add_0_r. rewrite Hframe.
        { apply lookup_insert_eq. }
        intros k Hk Heq. apply Hfresh. rewrite <- Heq.
        apply list_elem_of_fmap. exists k. split; [done|]. apply elem_of_seq. lia.
      * replace (added + S k)%nat with (S added + k)%nat by lia. by apply Hlookup.
  - rewrite decide_False by (cbn; congruence). apply IH.
Qed.

(** X25: rows without a name do not count: the import loop gives the
    same registry and counter as on the named rows alone, and the
    counter is the number of named rows. *)
Theorem import_rows_skips_unnamed (ids : nat -> string) (rows : list csv_row)
    (players : gmap string Player.t) :
  import_rows ids rows players =
    import_rows ids (filter (λ row, named row = true) rows) players ∧
  (import_rows ids rows players).2 = length (filter (λ row, named row = true) rows).
Proof.
  split; [|by destruct (import_loop ids rows players 0) as (Hcount & _)].
  unfold import_rows. generalize 0%nat. revert players.
  induction rows as [|row rows IH]; intros players added; [done|].
  cbn [foldl]. rewrite import_row_cases, filter_cons.
  destruct (named row) eqn:Hnamed.
  - rewrite decide_True by done. cbn [foldl]. by rewrite import_row_cases, Hnamed.
  - rewrite decide_False by (cbn; congruence). apply IH.
Qed.

(** X26: when the ids the constructor picks are pairwise distinct, the
    k-th named row of the file is in the registry after the loop, under
    the k-th id, as an active player with the row's name. *)
Theorem import_rows_stores_each_named_row (ids : nat -> string) (rows : list csv_row)
    (players : gmap string Player.t) (k : nat) (row : csv_row) :
  NoDup (ids <$> seq 0 (length (filter (λ row, named row = true) rows))) ->
  filter (λ row, named row = true) rows !! k = Some row ->
  (import_rows ids rows players).1 !! ids k = Some (player_of_row (ids k) row) ∧
  Player.is_active (player_of_row (ids k) row) = true ∧
  Player.id (player_of_row (ids k) row) = ids k ∧
  row_get "Name" row = Some (Player.name (player_of_row (ids k) row)).
Proof.
  intros Hnodup Hk.
  destruct (import_loop ids rows players 0) as (_ & _ & Hlookup).
  split; [by apply (Hlookup Hnodup k row)|]. do 2 (split; [done|]).
  apply list_elem_of_lookup_2, list_elem_of_filter in Hk as [Hnamed _].
  unfold named in Hnamed. cbn. by destruct (row_get "Name" row).
Qed.

(** X27: the import loop writes only under the ids the constructor
    picks: an entry under any other id is as before. *)
Theorem import_rows_keeps_other_entries (ids : nat -> string) (rows : list csv_row)
    (players : gmap string Player.t) (i : string) :
  (∀ k, (k < length (filter (λ row, named row = true) rows))%nat -> ids k ≠ i) ->
  (import_rows ids rows players).1 !! i = players !! i.
Proof.
  intros Hfresh. destruct (import_loop ids rows players 0) as (_ & Hframe & _).
  apply Hframe. intros k Hk. apply Hfresh. lia.
Qed.

(** X28: a file that cannot be opened leaves the state alone but for
    the "Import Error" box; a reader that raises after some rows leaves
    those rows imported, the state not marked dirty, and shows the same
    box. *)
Theorem import_error_paths (env : import_env) (self : App) (T : Tournament.t) :
  tournament self = Some T ->
  Tournament.rounds_pairings_ids T = [] ->
  import_name env ≠ "" ->
  (import_file env = CsvUnreadable ->
   import_players_csv env self = (inr tt, show (MessageBox Critical "Import Error") self)) ∧
  (∀ rows, import_file env = CsvRows rows true ->
     import_players_csv env self =
       (inr tt,
        mkApp (Some (Tournament.set_players
                       (import_rows (import_ids env) rows (Tournament.players T)).1 T))
          (current_round_index self) (last_recorded_results_data self)
          (_current_filepath self) (_dirty self)
          (ui self ++ [MessageBox Critical "Import Error"]))).
Proof.
  intros HT Hrounds Hname. unfold import_players_csv, Tournament.started.
  rewrite HT, Hrounds. apply String.eqb_neq in Hname. rewrite Hname.
  change (0 <? Z.of_nat (length [])) with false. cbv iota.
  unfold try_except, import_players_csv_try. split.
  - by intros ->.
  - intros rows ->. destruct (import_rows _ _ _) as [players added].
    destruct self as [T' index recorded path dirty trace]. cbn in HT. subst T'.
    by cbv -[app].
Qed.

End ImportMore.


(** ** The further statements at sample inputs *)

(** The sample registry of two players has unique names. *)
Lemma names_unique_club_open_two : names_unique (Tournament.players club_open_two).
Proof.
  intros i j p q Hi Hj Hname. cbn in Hi, Hj.
  apply lookup_insert_Some in Hi as [[<- <-]|[_ Hi]];
    apply lookup_insert_Some in Hj as [[<- <-]|[_ Hj]]; try done.
  - by apply lookup_singleton_Some in Hj as [<- <-].
  - by apply lookup_singleton_Some in Hi as [<- <-].
  - apply lookup_singleton_Some in Hi as [<- _].
    by apply lookup_singleton_Some in Hj as [<- _].
Defined.

(** The tag ["v2.0.0"] is shown as ["2.0.0"]. *)
Lemma reported_update_shows_compared_tag_witness :
  get_latest_version
    (@check_for_updates release_numbers (Response 200 (Some release_2_0_0))
       (Updater_init "1.4.2")).2 = inr (JStr "2.0.0").
Proof.
  destruct (@reported_update_shows_compared_tag release_numbers (Updater_init "1.4.2")
              (Response 200 (Some release_2_0_0)) eq_refl)
    as (release & Hfetched & _ & Htag).
  injection Hfetched as <-. exact (Htag "v2.0.0" eq_refl).
Defined.

(** The URL opened for the sample release. *)
Lemma prompt_update_opens_first_asset_witness :
  get_download_url (mkUpdater "1.4.2" release_2_0_0) =
    inr (JStr "https://example.org/setup.exe") ∧
  truthy (JStr "https://example.org/setup.exe") = true.
Proof.
  destruct (prompt_update_opens_first_asset (Some (mkUpdater "1.4.2" release_2_0_0)) true
              App_init (show (MessageBox Information "Update Available") App_init)
              (JStr "https://example.org/setup.exe") eq_refl)
    as (_ & Htruthy & _ & u & Hu & Hurl & _).
  injection Hu as <-. split; [exact Hurl|exact Htruthy].
Defined.

(** A manual check without network. *)
Lemma failed_check_reads_as_up_to_date_witness :
  @check_for_updates_manual release_numbers (Some (Updater_init "1.4.2")) Unreachable true
    App_init =
    inr (None, Some (mkUpdater "1.4.2" JNull),
         show (MessageBox Information "Update Check")
           (show StatusMessage (show StatusMessage App_init))).
Proof.
  exact (proj1 (@failed_check_reads_as_up_to_date release_numbers (Updater_init "1.4.2")
                  Unreachable true App_init (@network_error release_numbers "1.4.2"))).
Defined.

(** After three recorded rounds of three. *)
Lemma at_most_one_round_action_witness :
  prepare_round_action (enabled_actions (Some club_open_paired) 3 true) = false ∧
  record_results_action (enabled_actions (Some club_open_paired) 3 true) = false.
Proof.
  apply (proj2 (proj2 (proj2 (proj2
           (at_most_one_round_action (Some club_open_paired) 3 true)))) club_open_paired
           eq_refl).
  cbn. lia.
Defined.

(** Adding after the first pairing. *)
Lemma add_player_detailed_only_when_enabled_witness :
  tournament (add_player_detailed (mkAddEnv Ok (Some (data_named "Bob")) "p2")
                (app_with club_open_paired)) = Some club_open_paired.
Proof.
  exact (add_player_detailed_only_when_enabled (mkAddEnv Ok (Some (data_named "Bob")) "p2")
           (app_with club_open_paired) eq_refl).
Defined.

(** Importing after the first pairing. *)
Lemma import_action_matches_guard_witness :
  ∃ title,
    @import_players_csv ascii_digits (import_of (one_row_file "Bob" "1480"))
      (app_with club_open_paired) =
    (inr tt, show (MessageBox Warning title) (app_with club_open_paired)).
Proof.
  exact (proj1 (@import_action_matches_guard ascii_digits
                  (import_of (one_row_file "Bob" "1480")) (app_with club_open_paired) 1 false)
           eq_refl).
Defined.

(** A first save under a picked name. *)
Lemma save_tournament_success_witness :
  let saved := (save_tournament false (mkSaveEnv "club.json" false)
                  (dirty_app_with club_open)).2 in
  _dirty saved = false ∧ _current_filepath saved = Some "club.json".
Proof.
  destruct (save_tournament_success false (mkSaveEnv "club.json" false)
              (dirty_app_with club_open) eq_refl) as (Hclean & _).
  split; [exact Hclean|reflexivity].
Defined.

(** A first save whose write fails. *)
Lemma save_tournament_failure_witness :
  let kept := (save_tournament false (mkSaveEnv "club.json" true)
                 (dirty_app_with club_open)).2 in
  _dirty kept = true ∧ _current_filepath kept = Some "club.json".
Proof.
  destruct (save_tournament_failure false (mkSaveEnv "club.json" true)
              (dirty_app_with club_open) eq_refl) as (_ & Hdirty & Hpath).
  split; [exact Hdirty|]. apply Hpath. discriminate.
Defined.

(** Answering Save to the unsaved-changes question. *)
Lemma proceeding_means_saved_or_discarded_witness :
  _dirty (check_save_before_proceeding Save (mkSaveEnv "club.json" false)
            (dirty_app_with club_open)).2 = false.
Proof.
  pose proof (proceeding_means_saved_or_discarded Save (mkSaveEnv "club.json" false)
                (dirty_app_with club_open)) as Hsaved.
  destruct (check_save_before_proceeding Save (mkSaveEnv "club.json" false)
              (dirty_app_with club_open)) as [proceed self'] eqn:Hcheck.
  assert (Hproceed : proceed = true) by (by injection Hcheck as <- _).
  destruct Hsaved as (_ & Hclean & _).
  destruct (Hclean Hproceed) as [Hdone|Hdiscard]; [exact Hdone|discriminate].
Defined.



(** Cancelling at the unsaved-changes question. *)
Lemma load_tournament_without_file_witness :
  tournament (@load_tournament record_codec
                (mkLoadEnv Cancel (mkSaveEnv "" false) "club.json"
                   (Document club_open_record) false)
                (dirty_app_with club_open)).2 = Some club_open.
Proof.
  apply (@load_tournament_without_file record_codec). right. reflexivity.
Defined.


(** A new tournament over discarded changes. *)
Lemma new_tournament_takes_dialog_settings_witness :
  ∃ shown,
    prompt_new_tournament "Untitled" ["buchholz"] Discard (mkSaveEnv "" false)
      (Some (5, ["wins"])) (dirty_app_with club_open) =
    mkApp (Some (Tournament.mk "Untitled" ∅ 5 ["wins"] [] [])) (JInt 0) (JArr []) None true
      shown.
Proof.
  exact (proj1 (new_tournament_takes_dialog_settings "Untitled" ["buchholz"] Discard
                  (mkSaveEnv "" false) (dirty_app_with club_open)
                  (show (MessageBox Question "Unsaved Changes") (dirty_app_with club_open))
                  5 ["wins"] eq_refl)).
Defined.

(** Adding Bob to the sample tournament. *)
Lemma add_player_detailed_stores_player_witness :
  registry (add_player_detailed (mkAddEnv Ok (Some (data_named "Bob")) "p2")
              (app_with club_open)) !! "p2" =
    Some (Player.mk "p2" "Bob" (Some 1480) None None None None None None true).
Proof.
  refine (proj1 (proj2 (add_player_detailed_stores_player
           (mkAddEnv Ok (Some (data_named "Bob")) "p2") (app_with club_open) club_open
           (data_named "Bob") eq_refl eq_refl eq_refl _ _))).
  - discriminate.
  - intros i p Hp. unfold club_open in Hp. cbn [Tournament.players] in Hp.
    apply lookup_singleton_Some in Hp as [_ <-]. discriminate.
Defined.

(** Submitting a taken name to the registry of two. *)
Lemma add_player_detailed_keeps_names_unique_witness :
  ∃ T', tournament (add_player_detailed (mkAddEnv Ok (Some (data_named "Bob")) "p3")
                      (app_with club_open_two)) = Some T' ∧
        names_unique (Tournament.players T').
Proof.
  exact (add_player_detailed_keeps_names_unique (mkAddEnv Ok (Some (data_named "Bob")) "p3")
           (app_with club_open_two) club_open_two eq_refl names_unique_club_open_two).
Defined.

(** Renaming Bob. *)
Lemma on_player_context_menu_keeps_names_unique_witness :
  ∃ T', tournament (on_player_context_menu
                      (mkMenuEnv (Some "p2") (Some EditAction) (Some (data_named "Robert")) false)
                      (app_with club_open_two)) = Some T' ∧
        names_unique (Tournament.players T').
Proof.
  exact (on_player_context_menu_keeps_names_unique
           (mkMenuEnv (Some "p2") (Some EditAction) (Some (data_named "Robert")) false)
           (app_with club_open_two) club_open_two eq_refl names_unique_club_open_two).
Defined.

(** Trying to remove a player of a running tournament. *)
Lemma started_menu_only_toggles_witness :
  ∃ T', tournament (on_player_context_menu
                      (mkMenuEnv (Some "p1") (Some RemoveAction) None true)
                      (app_with club_open_paired)) = Some T' ∧
        Tournament.set_players (Tournament.players club_open_paired) T' = club_open_paired.
Proof.
  destruct (started_menu_only_toggles (mkMenuEnv (Some "p1") (Some RemoveAction) None true)
              (app_with club_open_paired) club_open_paired eq_refl)
    as (T' & HT' & Hrest & _); [discriminate|].
  exists T'. split; [exact HT'|exact Hrest].
Defined.

(** Renaming Bob to Alice. *)
Lemma edit_rejects_taken_name_witness :
  on_player_context_menu
    (mkMenuEnv (Some "p2") (Some EditAction) (Some (data_named "Alice")) false)
    (app_with club_open_two) =
  show (MessageBox Warning "Edit Error") (app_with club_open_two).
Proof.
  refine (edit_rejects_taken_name
            (mkMenuEnv (Some "p2") (Some EditAction) (Some (data_named "Alice")) false)
            (app_with club_open_two) club_open_two "p2" bob
            (data_named "Alice") eq_refl eq_refl eq_refl eq_refl eq_refl eq_refl _).
  right. split; [discriminate|]. exists "p1", alice. split; reflexivity.
Defined.


(** Reactivating and withdrawing Bob. *)
Lemma withdraw_twice_restores_witness :
  let env := mkMenuEnv (Some "p2") (Some WithdrawAction) None false in
  tournament (on_player_context_menu env (on_player_context_menu env (app_with club_open_two)))
  = Some club_open_two.
Proof.
  exact (withdraw_twice_restores (mkMenuEnv (Some "p2") (Some WithdrawAction) None false)
           (app_with club_open_two) eq_refl).
Defined.

(** The second named row of the sample file. *)
Lemma import_rows_stores_each_named_row_witness :
  (@import_rows ascii_digits (import_ids (import_of CsvUnreadable)) three_row_file
     (Tournament.players club_open)).1 !! "p3" =
    Some (Player_new "p3" "Carol" None None None None None None None).
Proof.
  refine (proj1 (@import_rows_stores_each_named_row ascii_digits
            (import_ids (import_of CsvUnreadable)) three_row_file
            (Tournament.players club_open) 1 [("Name", "Carol"); ("Rating", "")] _ eq_refl)).
  apply (@bool_decide_unpack _ (NoDup_dec _)). vm_compute. exact I.
Defined.

(** Alice after importing the sample file. *)
Lemma import_rows_keeps_other_entries_witness :
  (@import_rows ascii_digits (import_ids (import_of CsvUnreadable)) three_row_file
     (Tournament.players club_open)).1 !! "p1" = Some alice.
Proof.
  refine (@import_rows_keeps_other_entries ascii_digits
            (import_ids (import_of CsvUnreadable)) three_row_file
            (Tournament.players club_open) "p1" _).
  intros k Hk. destruct k as [|[|k]]; [discriminate|discriminate|].
  exfalso. change (length (filter (λ row, named row = true) three_row_file)) with 2%nat in Hk.
  lia.
Defined.

(** The sample file with a reader that raises at its end. *)
Lemma import_error_paths_witness :
  @import_players_csv ascii_digits (import_of (CsvRows three_row_file true))
    (app_with club_open) =
    (inr tt,
     mkApp (Some (Tournament.set_players
                    (@import_rows ascii_digits (import_ids (import_of CsvUnreadable))
                       three_row_file (Tournament.players club_open)).1 club_open))
       (JInt 0) (JArr []) None false [MessageBox Critical "Import Error"]).
Proof.
  refine (proj2 (@import_error_paths ascii_digits (import_of (CsvRows three_row_file true))
                   (app_with club_open) club_open eq_refl eq_refl _) three_row_file eq_refl).
  discriminate.
Defined.
